(** * Home-nursing booking API: auth gate, patients and service requests

    A shallow embedding of the Express handlers of the repository
    (middleware/auth.js, routes/patients.js, routes/serviceRequests.js,
    models/ServiceRequest.js) together with the properties their
    specification states about them.

    Modelling conventions
    - A plain JS object (request body, [toObject()] result, JSON payload)
      is a finite map from field names to JSON scalars.
    - A collection of the document store is the list of its documents in
      insertion order; the store is threaded through every handler, which
      returns the new store together with the HTTP response.
    - An [undefined] field is [None].
    - Transport failures of the driver are outside the model: a call
      either answers or throws for one of the reasons written out below.
    - The [_id] of a service request is an ObjectId (the schema declares
      none of its own): a path id that is not one makes the query throw.
      models/Patient.js is not among the sources, so patient ids are
      plain strings here. *)

From Stdlib Require Import Ascii.
From stdpp Require Import gmap strings list fin_maps.

(** ** JSON scalars and objects *)

Inductive value :=
  | VStr (s : string)
  | VNum (n : Z)
  | VBool (b : bool)
  | VNull.

#[global] Instance value_eq_dec : EqDecision value.
Proof. solve_decision. Defined.

Abbreviation object := (gmap string value).

(** JS truthiness of a possibly undefined string. *)
Definition truthy (s : option string) : bool :=
  match s with
  | Some s => negb (bool_decide (s = ""))
  | None => false
  end.

(** [String.prototype.split] with a one-character separator. *)
Fixpoint split (sep : Ascii.ascii) (s : string) : list string :=
  match s with
  | EmptyString => [EmptyString]
  | String c s' =>
      if Ascii.eqb c sep then EmptyString :: split sep s'
      else match split sep s' with
           | [] => [String c EmptyString]
           | w :: ws => String c w :: ws
           end
  end.

(** Whether a character occurs in a string. *)
Fixpoint occurs (c : Ascii.ascii) (s : string) : bool :=
  match s with
  | EmptyString => false
  | String c' s' => Ascii.eqb c' c || occurs c s'
  end.

(** ** middleware/auth.js *)

Module Auth.

(** The part of an incoming request the gate reads and writes. *)
Record request := Request {
  headers : gmap string string;
  userId : option value
}.

(** What the gate does with the request: answer it, or hand it on. *)
Inductive outcome :=
  | sendStatus (code : nat)
  | next (req : request).

(** Result handed by [jwt.verify] to its callback: [(err, user)]. *)
Inductive verified :=
  | err
  | decoded (user : object).

Definition secret : string := "tu_secreto_jwt".

Section Issue.

(** [jwt.sign(payload, key, { expiresIn })] of the jsonwebtoken package. *)
Variable jwt_sign : object → string → string → string.

(** [generateToken(userId)] *)
Definition generateToken (userId : value) : string :=
  jwt_sign {[ "userId" := userId ]} secret "1h".

End Issue.

Section Gate.

(** [jwt.verify] of the jsonwebtoken package: signature and expiry
    check of a token under a secret. *)
Variable jwt_verify : string → string → verified.

(** [req.headers['authorization'] && req.headers['authorization'].split(' ')[1]] *)
Definition token_of (req : request) : option string :=
  match headers req !! "authorization" with
  | None => None
  | Some h => if bool_decide (h = "") then Some "" else split " "%char h !!
      1%nat
  end.

Definition authenticateToken (req : request) : outcome :=
  match token_of req with
  | Some token =>
      if truthy (Some token) then
        match jwt_verify token secret with
        | err => sendStatus 403
        | decoded user =>
            next {| headers := headers req; userId := user !! "userId" |}
        end
      else sendStatus 401
  | None => sendStatus 401
  end.

End Gate.

End Auth.

(** ** The document store *)

(** What the persistence layer can refuse a call with. Only the kind is
    kept; [error.message] is the driver's text for it. *)
Inductive error :=
  | ValidationError   (* a schema validator or cast rejected the document *)
  | DuplicateKey      (* E11000: the [_id] is already in the collection *)
  | BadValue          (* the query options were refused (negative skip) *)
  | CastError         (* a query value does not cast to the path's type *)
  | TypeError.        (* a property of [undefined] was read *)

(** An awaited call: it resolves to a value or throws. *)
Inductive result (A : Type) :=
  | Ok (x : A)
  | Throw (e : error).
Arguments Ok {A} x.
Arguments Throw {A} e.

#[global] Instance result_ret : MRet result := λ A x, Ok x.

#[global] Instance result_bind : MBind result := λ A B k m,
  match m with
  | Ok x => k x
  | Throw e => Throw e
  end.

(** [try { body } catch (error) { handler }] around a handler body. *)
Definition try_catch {A : Type} (body : result A) (handler : error → A) : A :=
  match body with
  | Ok x => x
  | Throw e => handler e
  end.

(** A collection is the list of its documents. A query whose filter has
    been cast resolves; what can throw is written out at [skip_limit],
    at [save] and at the cast of a service request id. *)
Module Collection.
Section Ops.
Context {A K : Type} `{EqDecision K}.

(** The documents a filter selects, in collection order. *)
Definition select (query : A → bool) (coll : list A) : list A :=
  filter (λ d, query d) coll.

(** [Model.find(filter)] *)
Definition find (query : A → bool) (coll : list A) : result (list A) :=
  Ok (select query coll).

(** [Model.countDocuments(filter)] *)
Definition countDocuments (query : A → bool) (coll : list A) : result nat :=
  Ok (length (select query coll)).

(** [Model.findOne(filter)] *)
Definition findOne (query : A → bool) (coll : list A) : result (option A) :=
  Ok (head (select query coll)).

(** [.skip(skip).limit(limit)] on a query. A negative skip is refused
    by the store; limit 0 means no limit, and a negative limit is
    taken by its absolute value. *)
Definition skip_limit (skip limit : Z) (docs : list A) : result (list A) :=
  if (skip <? 0)%Z then Throw BadValue
  else
    let rest := drop (Z.to_nat skip) docs in
    Ok (if (limit =? 0)%Z then rest
        else take (Z.to_nat (Z.abs limit)) rest).

(** The first match in collection order updated in place: the new
    collection and the updated document, or [None] without a match. *)
Fixpoint update_first (query : A → bool) (update : A → A)
    (coll : list A) : option (list A * A) :=
  match coll with
  | [] => None
  | d :: ds =>
      if query d then Some (update d :: ds, update d)
      else match update_first query update ds with
           | Some (ds', r) => Some (d :: ds', r)
           | None => None
           end
  end.

(** [Model.findOneAndUpdate(filter, update, { new: true })] *)
Definition findOneAndUpdate (query : A → bool) (update : A → A)
    (coll : list A) : result (option (list A * A)) :=
  Ok (update_first query update coll).

(** [doc.save()] of a new document: validate, then insert under a
    unique [_id]. *)
Definition save (validate : A → bool) (key : A → K) (doc : A)
    (coll : list A) : result (list A) :=
  if negb (validate doc) then Throw ValidationError
  else if bool_decide (key doc ∈ (key <$> coll)) then Throw DuplicateKey
  else Ok (coll ++ [doc]).

End Ops.
End Collection.

(** ** models/ServiceRequest.js *)

Record ServiceRequest := {
  _id : string;
  user_id : option string;
  nurse_id : option string;
  patient_ids : list string;
  estado : string;
  detalles : option string;
  fecha : option Z;
  tarifa : option Z;
  pago_realizado : bool;
  pago_liberado : bool;
  documentacion_servicio : option string;
  observaciones : option string;
  recomendaciones : option string
}.

Module ServiceRequestSchema.

Section New.

(** The cast of the [Date] path: [new Date(s)], refused when the
    string is not a date. *)
Variable castDate : string → option Z.

(** [new ServiceRequest({ user_id, nurse_id, patient_ids, detalles,
    fecha, tarifa })]: paths that are not given take their schema
    default ([estado], [pago_realizado], [pago_liberado]) or stay
    undefined; a [fecha] that fails its cast stays undefined and is
    reported by validation. *)
Definition new (oid : string) (user_id nurse_id : option string)
    (patient_ids : list string) (detalles fecha : option string)
    (tarifa : option Z) : ServiceRequest :=
  {| _id := oid;
     user_id := user_id;
     nurse_id := nurse_id;
     patient_ids := patient_ids;
     estado := "pendiente";
     detalles := detalles;
     fecha := fecha ≫= castDate;
     tarifa := tarifa;
     pago_realizado := false;
     pago_liberado := false;
     documentacion_servicio := None;
     observaciones := None;
     recomendaciones := None |}.

End New.

Section Ids.

(** The ObjectId cast of the driver: whether a string is accepted as an
    ObjectId (a string of 24 hexadecimal digits is). *)
Variable isObjectId : string → bool.

(** The cast of a query's [_id] value: the schema declares no [_id], so
    the path is an ObjectId and a string that is not one is refused. *)
Definition castId (id : string) : result string :=
  if isObjectId id then Ok id else Throw CastError.

(** The [required: true] validators of the schema; a required string
    must also be non-empty. The [_id] path must hold an ObjectId, as
    every id the driver generates does. *)
Definition validate (r : ServiceRequest) : bool :=
  truthy (user_id r) && truthy (nurse_id r)
  && forallb (λ p, truthy (Some p)) (patient_ids r)
  && bool_decide (is_Some (fecha r))
  && bool_decide (is_Some (tarifa r))
  && isObjectId (_id r).

End Ids.

(** The update document [{ estado }]. *)
Definition set_estado (e : string) (r : ServiceRequest) : ServiceRequest :=
  {| _id := _id r;
     user_id := user_id r;
     nurse_id := nurse_id r;
     patient_ids := patient_ids r;
     estado := e;
     detalles := detalles r;
     fecha := fecha r;
     tarifa := tarifa r;
     pago_realizado := pago_realizado r;
     pago_liberado := pago_liberado r;
     documentacion_servicio := documentacion_servicio r;
     observaciones := observaciones r;
     recomendaciones := recomendaciones r |}.

End ServiceRequestSchema.

(** ** models/Patient.js *)

Module PatientSchema.

(** Modelled from the spec: models/Patient.js is not among the sources.
    A patient has a name, a date of birth, a gender, a free-text
    description and the identifier of the owning user; the field names
    are the ones the handlers query and select. *)
Definition paths : list string :=
  ["name"; "fecha_nacimiento"; "genero"; "descripcion"; "usuario_id"].

(** [new Patient(obj)]: only [_id] and the paths of the schema are kept,
    and a document without [_id] is given a generated one. *)
Definition new (oid : string) (obj : object) : object :=
  let doc := filter (λ kv, kv.1 ∈ "_id" :: paths) obj in
  match doc !! "_id" with
  | Some _ => doc
  | None => <["_id" := VStr oid]> doc
  end.

(** The key the collection is unique on. *)
Definition key (doc : object) : option value := doc !! "_id".

End PatientSchema.

(** ** The store and the HTTP responses *)

Record database := Database {
  patients : list object;
  requests : list ServiceRequest
}.

(** A service request after [populate]: the request and the patient
    documents resolved for it. *)
Record populated := Populated {
  request_of : ServiceRequest;
  patients_of : list object
}.

Inductive payload :=
  | Message (message : string)
  | Failure (message : string) (error : error)
  | PatientData (patientData : object)
  | PatientPage (total : nat) (page limit : Z) (patients : list object)
  | Request (newRequest : ServiceRequest)
  | RequestPage (total : nat) (page limit : Z) (requests : list populated)
  | Updated (message : string) (serviceRequest : ServiceRequest)
  | Detail (serviceRequest : populated).

(** [res.status(status).json(json)] *)
Record response := Response {
  status : nat;
  json : payload
}.

(** Query conditions on a field of a plain document. *)
Definition eq_ (v : value) (field : option value) : bool :=
  bool_decide (field = Some v).

Definition in_ (vs : list value) (field : option value) : bool :=
  match field with
  | Some v => bool_decide (v ∈ vs)
  | None => false
  end.

(** The defaults of [const { page = 1, limit = 10 } = req.query]. *)
Definition page_of (q_page : option Z) : Z := default 1%Z q_page.
Definition limit_of (q_limit : option Z) : Z := default 10%Z q_limit.

(** ** routes/patients.js *)

Module Patients.
Section Handlers.

(** The validators of the Patient schema (not among the sources). *)
Variable validate : object → bool.

(** [const { _id, ...patientData } = patient.toObject()] *)
Definition withoutID (patient : object) : object := delete "_id" patient.

(** [router.get('/')] *)
Definition get (db : database) (userId : string)
    (q_page q_limit : option Z) : response :=
  let page := page_of q_page in
  let limit := limit_of q_limit in
  try_catch
    (let query := λ d : object, eq_ (VStr userId) (d !! "usuario_id") in
     let skip := ((page - 1) * limit)%Z in
     total ← Collection.countDocuments query (patients db);
     patients ← Collection.find query (patients db)
                  ≫= Collection.skip_limit skip limit;
     let patientsWithoutID := withoutID <$> patients in
     mret (Response 200 (PatientPage total page limit patientsWithoutID)))
    (λ e, Response 500 (Failure "Error al obtener los pacientes" e)).

(** [router.post('/')]; [oid] is the identifier the driver generates
    for the new document. *)
Definition post (db : database) (userId : string) (oid : string)
    (body : object) : database * response :=
  try_catch
    (let newPatient :=
       PatientSchema.new oid (<["usuario_id" := VStr userId]> body) in
     coll ← Collection.save validate PatientSchema.key newPatient
               (patients db);
     let patientData := withoutID newPatient in
     mret (Database coll (requests db), Response 201 (PatientData patientData)))
    (λ e, (db, Response 400 (Failure "Error al crear el paciente" e))).

End Handlers.
End Patients.

(** ** routes/serviceRequests.js *)

Module ServiceRequests.

(** [req.body] of the create call, each field possibly undefined. *)
Record create_body := {
  body_nurse_id : option string;
  body_patient_ids : option (list string);
  body_detalles : option string;
  body_fecha : option string;
  body_tarifa : option Z
}.

Definition statuses : list string :=
  ["pendiente"; "aceptada"; "rechazada"; "completada"].

(** [$or: [{ user_id: req.userId }, { nurse_id: req.userId }]] *)
Definition party (userId : string) (r : ServiceRequest) : bool :=
  bool_decide (user_id r = Some userId)
  || bool_decide (nurse_id r = Some userId).

(** The filter of the list call: the [$or], and [filter.estado = estado]
    when [estado] is truthy. *)
Definition list_filter (userId : string) (q_estado : option string)
    (r : ServiceRequest) : bool :=
  party userId r
  && match q_estado with
     | Some e => if truthy (Some e) then bool_decide (estado r = e) else true
     | None => true
     end.

(** [.populate('patient_ids', 'name fecha_nacimiento genero descripcion')]:
    the [patient_ids] path of the schema declares no [ref], so there is
    no model to look the ids up in and no patient document is resolved;
    the request is answered as it is stored. *)
Definition populate (pats : list object) (r : ServiceRequest) : populated :=
  Populated r [].

(** [res.status(403).json({ message: ... })] of the ownership check. *)
Definition denied : response :=
  Response 403 (Message "Acceso denegado a uno o más pacientes seleccionados").

Section Handlers.

Variable castDate : string → option Z.
Variable isObjectId : string → bool.

(** [router.post('/')] *)
Definition post (db : database) (userId : string) (oid : string)
    (body : create_body) : database * response :=
  try_catch
    (ids ← match body_patient_ids body with
           | Some ids => Ok ids
           | None => Throw TypeError
           end;
     validPatients ←
       Collection.find
         (λ d : object, in_ (VStr <$> ids) (d !! "_id")
                        && eq_ (VStr userId) (d !! "usuario_id"))
         (patients db);
     if negb (length validPatients =? length ids)%nat then mret (db, denied)
     else
       let newRequest :=
         ServiceRequestSchema.new castDate oid (Some userId)
           (body_nurse_id body) ids (body_detalles body)
           (body_fecha body) (body_tarifa body) in
       coll ← Collection.save (ServiceRequestSchema.validate isObjectId) _id
                 newRequest (requests db);
       mret (Database (patients db) coll, Response 201 (Request newRequest)))
    (λ e,
       (db, Response 400 (Failure "Error al crear la solicitud de servicio"
           e))).

(** [router.get('/')] *)
Definition get_list (db : database) (userId : string)
    (q_estado : option string) (q_page q_limit : option Z) : response :=
  let page := page_of q_page in
  let limit := limit_of q_limit in
  try_catch
    (let query := list_filter userId q_estado in
     let skip := ((page - 1) * limit)%Z in
     total ← Collection.countDocuments query (requests db);
     found ← Collection.find query (requests db)
               ≫= Collection.skip_limit skip limit;
     let requests := populate (patients db) <$> found in
     mret (Response 200 (RequestPage total page limit requests)))
    (λ e, Response 500 (Failure "Error al obtener las solicitudes" e)).

(** [router.put('/:id')] *)
Definition put (db : database) (userId : string) (id : string)
    (b_estado : option string) : database * response :=
  match b_estado with
  | Some e =>
      if negb (bool_decide (e ∈ statuses)) then
        (db, Response 400 (Message "Estado inválido"))
      else
        try_catch
          (id ← ServiceRequestSchema.castId isObjectId id;
           updated ← Collection.findOneAndUpdate
                       (λ r, bool_decide (_id r = id)
                             && bool_decide (nurse_id r = Some userId))
                       (ServiceRequestSchema.set_estado e) (requests db);
           match updated with
           | None =>
               mret (db, Response 404
                           (Message "Solicitud de servicio no encontrada"))
           | Some (coll, serviceRequest) =>
               mret (Database (patients db) coll,
                     Response 200
                       (Updated ("Solicitud " +:+ e +:+ " exitosamente")
                          serviceRequest))
           end)
          (λ e',
             (db, Response 400 (Failure "Error al actualizar la solicitud" e')))
  | None => (db, Response 400 (Message "Estado inválido"))
  end.

(** [router.get('/:id')] *)
Definition get_one (db : database) (userId : string) (id : string)
    : response :=
  try_catch
    (id ← ServiceRequestSchema.castId isObjectId id;
     serviceRequest ← Collection.findOne
                        (λ r, bool_decide (_id r = id) && party userId r)
                        (requests db);
     match serviceRequest with
     | Some r => mret (Response 200 (Detail (populate (patients db) r)))
     | None => mret (Response 404 (Message "Solicitud no encontrada"))
     end)
    (λ e,
       Response 500
         (Failure "Error al obtener los detalles de la solicitud" e)).

End Handlers.
End ServiceRequests.

(** ** Reachable stores *)

(** The uniqueness the store keeps on [_id] in both collections. *)
Definition unique_ids (db : database) : Prop :=
  NoDup (PatientSchema.key <$> patients db) ∧ NoDup (_id <$> requests db).

(** The stores the three writing handlers can produce from the empty one. *)
Inductive reachable : database → Prop :=
  | reach_empty : reachable (Database [] [])
  | reach_patient validate db userId oid body :
      reachable db →
      reachable (Patients.post validate db userId oid body).1
  | reach_request castDate isObjectId db userId oid body :
      reachable db →
      reachable
        (ServiceRequests.post castDate isObjectId db userId oid body).1
  | reach_update isObjectId db userId id b_estado :
      reachable db →
      reachable (ServiceRequests.put isObjectId db userId id b_estado).1.

(** ** Sample data *)

Module Sample.

(** Ids as the driver generates them, one of them not in the store. *)
Definition r1 : string := "65f1c0a4e8b2d3f4a5b6c7d1".
Definition r2 : string := "65f1c0a4e8b2d3f4a5b6c7d2".

(** A string is an ObjectId when it is 24 hexadecimal digits. *)
Definition isObjectId (s : string) : bool :=
  let hex := λ c : Ascii.ascii,
    let n := Ascii.nat_of_ascii c in
    (48 <=? n)%nat && (n <=? 57)%nat
    || (97 <=? n)%nat && (n <=? 102)%nat
    || (65 <=? n)%nat && (n <=? 70)%nat in
  (String.length s =? 24)%nat && forallb hex (String.list_ascii_of_string s).

Definition ana : object :=
  {[ "_id" := VStr "p1"; "name" := VStr "Ana";
     "fecha_nacimiento" := VStr "1990-01-01"; "genero" := VStr "F";
     "descripcion" := VStr "-"; "usuario_id" := VStr "A" ]}.

Definition luis : object :=
  {[ "_id" := VStr "p2"; "name" := VStr "Luis";
     "fecha_nacimiento" := VStr "1985-07-12"; "genero" := VStr "M";
     "descripcion" := VStr "-"; "usuario_id" := VStr "A" ]}.

Definition bea : object :=
  {[ "_id" := VStr "p3"; "name" := VStr "Bea";
     "fecha_nacimiento" := VStr "2001-03-30"; "genero" := VStr "F";
     "descripcion" := VStr "-"; "usuario_id" := VStr "B" ]}.

Definition visit : ServiceRequest :=
  {| _id := r1;
     user_id := Some "A";
     nurse_id := Some "N";
     patient_ids := ["p1"];
     estado := "aceptada";
     detalles := Some "curas";
     fecha := Some 1714521600000%Z;
     tarifa := Some 250%Z;
     pago_realizado := true;
     pago_liberado := false;
     documentacion_servicio := None;
     observaciones := Some "sin novedad";
     recomendaciones := None |}.

Definition db : database := Database [ana; luis; bea] [visit].

Definition castDate (s : string) : option Z :=
  if bool_decide (s = "2024-05-01") then Some 1714521600000%Z else None.

Definition jwt_verify (token key : string) : Auth.verified :=
  if bool_decide (token = "signed-by-us" ∧ key = Auth.secret)
  then Auth.decoded {[ "userId" := VStr "A" ]}
  else Auth.err.

(** A signer the sample verifier accepts within the hour. *)
Definition jwt_sign (payload : object) (key expiresIn : string) : string :=
  if bool_decide (payload !! "userId" = Some (VStr "A") ∧ key = Auth.secret)
  then "signed-by-us" else "signed-by-others".

Definition validate (doc : object) : bool :=
  bool_decide (is_Some (doc !! "name")).

(** The patient of the specification's first scenario. *)
Definition ana_body : object :=
  {[ "name" := VStr "Ana"; "fecha_nacimiento" := VStr "1990-01-01";
     "genero" := VStr "F"; "descripcion" := VStr "-" ]}.

(** A patient body that tries to name another owner. *)
Definition carla : object :=
  {[ "name" := VStr "Carla"; "genero" := VStr "F";
     "usuario_id" := VStr "B" ]}.

(** A header that carries a token under another scheme word. *)
Definition basic_request : Auth.request :=
  Auth.Request {[ "authorization" := "Basic signed-by-us" ]} None.

(** A header that carries the token alone. *)
Definition bare_request : Auth.request :=
  Auth.Request {[ "authorization" := "signed-by-us" ]} None.

Definition body (ids : list string) : ServiceRequests.create_body :=
  {| ServiceRequests.body_nurse_id := Some "N";
     ServiceRequests.body_patient_ids := Some ids;
     ServiceRequests.body_detalles := None;
     ServiceRequests.body_fecha := Some "2024-05-01";
     ServiceRequests.body_tarifa := Some 300%Z |}.

(** A body that names no patient. *)
Definition body_without_patients : ServiceRequests.create_body :=
  {| ServiceRequests.body_nurse_id := Some "N";
     ServiceRequests.body_patient_ids := Some [];
     ServiceRequests.body_detalles := None;
     ServiceRequests.body_fecha := Some "2024-05-01";
     ServiceRequests.body_tarifa := Some 300%Z |}.

(** A body whose date does not cast. *)
Definition body_bad_date : ServiceRequests.create_body :=
  {| ServiceRequests.body_nurse_id := Some "N";
     ServiceRequests.body_patient_ids := Some ["p1"];
     ServiceRequests.body_detalles := None;
     ServiceRequests.body_fecha := Some "mañana";
     ServiceRequests.body_tarifa := Some 300%Z |}.

(** A store built by the handlers alone: user A registers Ana, requests
    a visit for her from nurse N, and N accepts it. *)
Definition registered : database :=
  (Patients.post validate (Database [] []) "A" "p1" ana_body).1.

Definition requested : database :=
  (ServiceRequests.post castDate isObjectId registered "A" r1
     (body ["p1"])).1.

Definition accepted : database :=
  (ServiceRequests.put isObjectId requested "N" r1 (Some "aceptada")).1.

End Sample.

(** * Properties *)

(** ** The auth gate *)

Example split_bearer : split " "%char "Bearer abc.def" = ["Bearer"; "abc.def"].
Proof. reflexivity. Qed.

Example split_no_token : split " "%char "Bearer" !! 1%nat = None.
Proof. reflexivity. Qed.

Example split_double_space :
  split " "%char "Bearer  abc" = ["Bearer"; ""; "abc"].
Proof. reflexivity. Qed.

Lemma split_no_sep sep s : occurs sep s = false → split sep s = [s].
Proof.
  induction s as [|c s IH]; simpl; [done|].
  intros [Hc Hs]%orb_false_iff. rewrite Hc, (IH Hs). done.
Qed.

Section AuthGate.

Variable jwt_verify : string → string → Auth.verified.

Local Abbreviation gate := (Auth.authenticateToken jwt_verify).

Lemma token_of_bearer hs uid t :
  occurs " "%char t = false →
  hs !! "authorization" = Some ("Bearer " +:+ t) →
  Auth.token_of (Auth.Request hs uid) = Some t.
Proof.
  intros Hsp Hh. unfold Auth.token_of. simpl. rewrite Hh.
  rewrite bool_decide_eq_false_2 by done.
  simpl. change ("" +:+ t) with t. by rewrite (split_no_sep _ _ Hsp).
Qed.

Lemma gate_401_iff req :
  gate req = Auth.sendStatus 401 ↔ truthy (Auth.token_of req) = false.
Proof.
  unfold Auth.authenticateToken.
  destruct (Auth.token_of req) as [t|]; [|done].
  destruct (truthy (Some t)); [|done].
  destruct (jwt_verify t Auth.secret); split; discriminate.
Qed.

Lemma gate_403_iff req :
  gate req = Auth.sendStatus 403 ↔
  ∃ t, Auth.token_of req = Some t ∧ t ≠ "" ∧
       jwt_verify t Auth.secret = Auth.err.
Proof.
  unfold Auth.authenticateToken.
  destruct (Auth.token_of req) as [t|]; simpl.
  - case_bool_decide as Ht; simpl.
    + split; [discriminate|]. intros (t' & [= <-] & Hne & _). done.
    + destruct (jwt_verify t Auth.secret) eqn:Hv.
      * split; [eauto|done].
      * split; [discriminate|]. intros (t' & [= <-] & _ & Hv').
        congruence.
  - split; [discriminate|]. intros (t' & [=] & _).
Qed.

Lemma gate_next_iff req req' :
  gate req = Auth.next req' ↔
  ∃ t user, Auth.token_of req = Some t ∧ t ≠ "" ∧
            jwt_verify t Auth.secret = Auth.decoded user ∧
            req' = Auth.Request (Auth.headers req) (user !! "userId").
Proof.
  unfold Auth.authenticateToken.
  destruct (Auth.token_of req) as [t|]; simpl.
  - case_bool_decide as Ht; simpl.
    + split; [discriminate|]. intros (t' & u & [= <-] & Hne & _). done.
    + destruct (jwt_verify t Auth.secret) as [|user] eqn:Hv.
      * split; [discriminate|]. intros (t' & u & [= <-] & _ & Hv' & _).
        congruence.
      * split.
        -- intros [= <-]. eauto 10.
        -- intros (t' & u & [= <-] & _ & Hv' & ->). congruence.
  - split; [discriminate|]. intros (t' & u & [=] & _).
Qed.

(** C4. A request without a bearer token is answered 401 and a request
    whose token fails verification is answered 403; the gate gives each
    answer in exactly that case, so the two are never confused, and the
    only other outcome hands the request on with [userId] set to the
    [userId] of the verified payload. For a header
    [Authorization: Bearer <token>] the token verified is [<token>]. *)
Theorem authenticateToken_outcomes (req : Auth.request) :
  (Auth.headers req !! "authorization" = None →
     gate req = Auth.sendStatus 401)
  ∧ (gate req = Auth.sendStatus 401 ↔ truthy (Auth.token_of req) = false)
  ∧ (gate req = Auth.sendStatus 403 ↔
       ∃ t, Auth.token_of req = Some t ∧ t ≠ "" ∧
            jwt_verify t Auth.secret = Auth.err)
  ∧ (∀ req', gate req = Auth.next req' ↔
       ∃ t user, Auth.token_of req = Some t ∧ t ≠ "" ∧
                 jwt_verify t Auth.secret = Auth.decoded user ∧
                 req' = Auth.Request (Auth.headers req) (user !! "userId"))
  ∧ (∀ t, occurs " "%char t = false →
       Auth.headers req !! "authorization" = Some ("Bearer " +:+ t) →
       Auth.token_of req = Some t)
  ∧ Auth.sendStatus 401 ≠ Auth.sendStatus 403.
Proof.
  split_and!.
  - intros Hh. apply gate_401_iff. unfold Auth.token_of. by rewrite Hh.
  - apply gate_401_iff.
  - apply gate_403_iff.
  - apply gate_next_iff.
  - intros t Hsp Hh. destruct req as [hs uid]. by eapply token_of_bearer.
  - discriminate.
Qed.

End AuthGate.

(** ** The handlers in direct style

    The awaited calls of a handler unfolded: which call can throw, and
    what the handler answers in each case. *)

Lemma patients_get_unfold db userId q_page q_limit :
  Patients.get db userId q_page q_limit =
    let query := λ d : object, eq_ (VStr userId) (d !! "usuario_id") in
    match Collection.skip_limit
            ((page_of q_page - 1) * limit_of q_limit) (limit_of q_limit)
            (Collection.select query (patients db)) with
    | Ok found =>
        Response 200
          (PatientPage (length (Collection.select query (patients db)))
             (page_of q_page) (limit_of q_limit)
             (Patients.withoutID <$> found))
    | Throw e => Response 500 (Failure "Error al obtener los pacientes" e)
    end.
Proof.
  unfold Patients.get, try_catch. simpl.
  by destruct (Collection.skip_limit _ _ _).
Qed.

Lemma patients_post_unfold validate db userId oid body :
  Patients.post validate db userId oid body =
    let newPatient :=
      PatientSchema.new oid (<["usuario_id" := VStr userId]> body) in
    match Collection.save validate PatientSchema.key newPatient
            (patients db) with
    | Ok coll =>
        (Database coll (requests db),
         Response 201 (PatientData (delete "_id" newPatient)))
    | Throw e => (db, Response 400 (Failure "Error al crear el paciente" e))
    end.
Proof.
  unfold Patients.post, try_catch. simpl.
  by destruct (Collection.save _ _ _ _).
Qed.

Lemma requests_post_unfold castDate isObjectId db userId oid body :
  ServiceRequests.post castDate isObjectId db userId oid body =
    let fail := λ e,
      (db, Response 400
             (Failure "Error al crear la solicitud de servicio" e)) in
    match ServiceRequests.body_patient_ids body with
    | None => fail TypeError
    | Some ids =>
        let validPatients :=
          Collection.select
            (λ d : object, in_ (VStr <$> ids) (d !! "_id")
                           && eq_ (VStr userId) (d !! "usuario_id"))
            (patients db) in
        if negb (length validPatients =? length ids)%nat
        then (db, ServiceRequests.denied)
        else
          let newRequest :=
            ServiceRequestSchema.new castDate oid (Some userId)
              (ServiceRequests.body_nurse_id body) ids
              (ServiceRequests.body_detalles body)
              (ServiceRequests.body_fecha body)
              (ServiceRequests.body_tarifa body) in
          match Collection.save (ServiceRequestSchema.validate isObjectId) _id
              newRequest
                  (requests db) with
          | Ok coll =>
              (Database (patients db) coll,
               Response 201 (Request newRequest))
          | Throw e => fail e
          end
    end.
Proof.
  unfold ServiceRequests.post, try_catch.
  destruct (ServiceRequests.body_patient_ids body) as [ids|]; simpl; [|done].
  destruct (negb _); [done|].
  by destruct (Collection.save _ _ _ _).
Qed.

Lemma requests_get_list_unfold db userId q_estado q_page q_limit :
  ServiceRequests.get_list db userId q_estado q_page q_limit =
    let query := ServiceRequests.list_filter userId q_estado in
    match Collection.skip_limit
            ((page_of q_page - 1) * limit_of q_limit) (limit_of q_limit)
            (Collection.select query (requests db)) with
    | Ok found =>
        Response 200
          (RequestPage (length (Collection.select query (requests db)))
             (page_of q_page) (limit_of q_limit)
             (ServiceRequests.populate (patients db) <$> found))
    | Throw e => Response 500 (Failure "Error al obtener las solicitudes" e)
    end.
Proof.
  unfold ServiceRequests.get_list, try_catch. simpl.
  by destruct (Collection.skip_limit _ _ _).
Qed.

(** ** Status update *)

Section UpdateFirst.
Context {A : Type} (query : A → bool) (update : A → A).

Lemma update_first_None coll :
  Collection.update_first query update coll = None ↔
  ∀ d, d ∈ coll → query d = false.
Proof.
  induction coll as [|d ds IH]; simpl.
  - split; [|done]. intros _ d Hd. by apply elem_of_nil in Hd.
  - destruct (query d) eqn:Hq.
    + split; [done|]. intros H. specialize (H d (list_elem_of_here _ _)).
      congruence.
    + destruct (Collection.update_first query update ds) as [[ds' r]|].
      * split; [done|]. intros H.
        assert (Hn : Some (ds', r) = None); [|done].
        apply IH. intros d' Hd'. apply H. by right.
      * split; [|done]. intros _ d' [->|Hd']%elem_of_cons; [done|].
        by apply IH.
Qed.

Lemma update_first_Some coll coll' r :
  Collection.update_first query update coll = Some (coll', r) ↔
  ∃ l1 d l2, coll = l1 ++ d :: l2 ∧ (∀ x, x ∈ l1 → query x = false) ∧
             query d = true ∧ r = update d ∧ coll' = l1 ++ update d :: l2.
Proof.
  revert coll'. induction coll as [|d ds IH]; intros coll'; simpl.
  - split; [done|]. intros (l1 & d & l2 & Hc & _). by destruct l1.
  - destruct (query d) eqn:Hq.
    + split.
      * intros [= <- <-]. exists [], d, ds. split_and!; try done.
        intros x Hx. by apply elem_of_nil in Hx.
      * intros (l1 & d' & l2 & Hc & Hl1 & Hq' & -> & ->).
        destruct l1 as [|x l1]; simplify_eq/=; [done|].
        specialize (Hl1 x (list_elem_of_here _ _)). congruence.
    + destruct (Collection.update_first query update ds)
        as [[ds' r']|] eqn:Hf.
      * split.
        -- intros [= <- <-].
           destruct (proj1 (IH ds') eq_refl)
             as (l1 & d' & l2 & -> & Hl1 & Hq' & -> & ->).
           exists (d :: l1), d', l2. split_and!; try done.
           intros x [->|Hx]%elem_of_cons; auto.
        -- intros (l1 & d' & l2 & Hc & Hl1 & Hq' & -> & ->).
           destruct l1 as [|x l1]; simplify_eq/=; [congruence|].
           assert (Some (ds', r') = Some (l1 ++ update d' :: l2, update d'))
             as [= -> ->]; [|done].
           apply IH. exists l1, d', l2. split_and!; try done.
           intros y Hy. apply Hl1. by right.
      * split; [done|].
        intros (l1 & d' & l2 & Hc & Hl1 & Hq' & -> & ->).
        destruct l1 as [|x l1]; simplify_eq/=; [congruence|].
        assert (Hn : Collection.update_first query update
                       (l1 ++ d' :: l2) = None) by done.
        rewrite update_first_None in Hn.
        specialize (Hn d'). rewrite Hn in Hq'; [done|].
        apply elem_of_app. right. left.
Qed.

End UpdateFirst.

Section StatusUpdate.

Variable isObjectId : string → bool.

Local Abbreviation put := (ServiceRequests.put isObjectId).
Local Abbreviation unreadable :=
  (Response 400 (Failure "Error al actualizar la solicitud" CastError)).
Local Abbreviation located id userId :=
  (λ r, bool_decide (_id r = id) && bool_decide (nurse_id r = Some userId)).

Lemma located_true id userId r :
  located id userId r = true ↔ _id r = id ∧ nurse_id r = Some userId.
Proof.
  rewrite andb_true_iff, !bool_decide_eq_true. done.
Qed.

Lemma put_invalid db userId id b_estado :
  (∀ e, b_estado = Some e → e ∉ ServiceRequests.statuses) →
  put db userId id b_estado = (db, Response 400 (Message "Estado inválido")).
Proof.
  intros Hbad. unfold ServiceRequests.put.
  destruct b_estado as [e|]; [|done].
  rewrite bool_decide_eq_false_2 by auto. done.
Qed.

(** With a valid status and an id that is no ObjectId, the cast of the
    query throws and the handler's [catch] answers. *)
Lemma put_uncastable db userId id e :
  e ∈ ServiceRequests.statuses →
  isObjectId id = false →
  put db userId id (Some e) = (db, unreadable).
Proof.
  intros He Hid. unfold ServiceRequests.put.
  rewrite bool_decide_eq_true_2 by done. simpl.
  unfold ServiceRequestSchema.castId. by rewrite Hid.
Qed.

Lemma put_valid db userId id e :
  e ∈ ServiceRequests.statuses →
  isObjectId id = true →
  put db userId id (Some e) =
    match Collection.update_first (located id userId)
            (ServiceRequestSchema.set_estado e) (requests db) with
    | None =>
        (db, Response 404 (Message "Solicitud de servicio no encontrada"))
    | Some (coll, serviceRequest) =>
        (Database (patients db) coll,
         Response 200
           (Updated ("Solicitud " +:+ e +:+ " exitosamente") serviceRequest))
    end.
Proof.
  intros He Hid. unfold ServiceRequests.put.
  rewrite bool_decide_eq_true_2 by done. simpl.
  unfold ServiceRequestSchema.castId. rewrite Hid.
  unfold Collection.findOneAndUpdate, try_catch. simpl.
  by destruct (Collection.update_first _ _ _) as [[coll r]|].
Qed.


(** C3. A status outside the four enumerated values (or no status at
    all) is answered 400 "Estado inválido" and the store is returned as
    it was. Each of the four values passes that check, whatever the
    request's status is now: the answer is then never that rejection; it
    is the 400 of the handler's [catch] exactly when the path id is no
    ObjectId, and 200 or 404 otherwise; and when the id is an ObjectId
    and a request is located under (id, caller as nurse) the call
    succeeds whatever status that request has. *)
Theorem put_status_validation db userId id b_estado :
  ((∀ e, b_estado = Some e → e ∉ ServiceRequests.statuses) →
     put db userId id b_estado =
       (db, Response 400 (Message "Estado inválido")))
  ∧ (∀ e, b_estado = Some e → e ∈ ServiceRequests.statuses →
       json (put db userId id b_estado).2 ≠ Message "Estado inválido"
       ∧ (isObjectId id = false →
          put db userId id b_estado = (db, unreadable))
       ∧ (isObjectId id = true →
          status (put db userId id b_estado).2 = 200
          ∨ status (put db userId id b_estado).2 = 404)
       ∧ ∀ current r, r ∈ requests db → estado r = current →
           _id r = id → nurse_id r = Some userId →
           isObjectId id = true →
           status (put db userId id b_estado).2 = 200).
Proof.
  split; [apply put_invalid|].
  intros e -> He. destruct (isObjectId id) eqn:Hcast.
  - rewrite put_valid by done.
    destruct (Collection.update_first _ _ _) as [[coll r']|] eqn:Hf; simpl.
    + split_and!; [done|done|by left|done].
    + split_and!; [done|done|by right|].
      intros current r Hr _ Hid Hn _. rewrite update_first_None in Hf.
      specialize (Hf r Hr). apply not_true_iff_false in Hf.
      destruct Hf. by apply located_true.
  - rewrite put_uncastable by done. simpl. split_and!; done.
Qed.



End StatusUpdate.


(** ** Creating a service request *)

Section Counting.
Context {A : Type} `{EqDecision A}.

Lemma length_remove_dups_le (l : list A) :
  length (remove_dups l) ≤ length l.
Proof.
  induction l as [|x l IH]; simpl; [done|].
  destruct (decide_rel elem_of x l); simpl; lia.
Qed.

Lemma length_remove_dups_lt (l : list A) :
  ¬ NoDup l → length (remove_dups l) < length l.
Proof.
  induction l as [|x l IH]; simpl.
  - intros H. destruct H. constructor.
  - intros Hdup. destruct (decide_rel elem_of x l) as [Hx|Hx]; simpl.
    + pose proof (length_remove_dups_le l). lia.
    + assert (¬ NoDup l) as Hl.
      { intros Hl. apply Hdup. by constructor. }
      specialize (IH Hl). lia.
Qed.

End Counting.

(** The documents of a collection with unique [_id]s that a query selects
    are at most as many as the distinct ids the query can select. *)
Lemma select_by_id_bound (pats : list object) (query : object → bool)
    (ids : list string) :
  NoDup (PatientSchema.key <$> pats) →
  (∀ d, d ∈ pats → query d = true →
        ∃ i, i ∈ ids ∧ d !! "_id" = Some (VStr i)) →
  length (Collection.select query pats) ≤ length (remove_dups ids).
Proof.
  intros Huniq Hsel. unfold Collection.select.
  set (found := filter (λ d, query d) pats).
  assert (NoDup (PatientSchema.key <$> found)) as Hnd.
  { eapply sublist_NoDup; [exact Huniq|].
    apply fmap_sublist, sublist_filter. }
  assert (PatientSchema.key <$> found ⊆+
          (λ i, Some (VStr i)) <$> remove_dups ids) as Hsub.
  { apply NoDup_submseteq; [done|]. intros k Hk.
    apply list_elem_of_fmap in Hk as (d & -> & Hd).
    apply list_elem_of_filter in Hd as [Hq Hd].
    destruct (Hsel d Hd) as (i & Hi & Hid); [by apply Is_true_true|].
    apply list_elem_of_fmap. exists i. split; [done|].
    by apply elem_of_remove_dups. }
  apply submseteq_length in Hsub. by rewrite !length_fmap in Hsub.
Qed.

Lemma save_Ok {A K : Type} `{EqDecision K} (validate : A → bool)
    (key : A → K) (doc : A) (coll coll' : list A) :
  Collection.save validate key doc coll = Ok coll' ↔
  validate doc = true ∧ (key doc ∉ key <$> coll) ∧ coll' = coll ++ [doc].
Proof.
  unfold Collection.save. destruct (validate doc); simpl.
  - case_bool_decide as Hk.
    + split; [done|]. by intros (_ & ? & _).
    + split; [by intros [= <-]|]. by intros (_ & _ & ->).
  - split; [done|]. by intros (? & _).
Qed.

Lemma save_unique {A K : Type} `{EqDecision K} (validate : A → bool)
    (key : A → K) (doc : A) (coll coll' : list A) :
  Collection.save validate key doc coll = Ok coll' →
  NoDup (key <$> coll) → NoDup (key <$> coll').
Proof.
  intros (_ & Hfresh & ->)%save_Ok Huniq.
  rewrite fmap_app. apply NoDup_app. split_and!; [done| |].
  - intros k Hk [->|[]%elem_of_nil]%elem_of_cons. done.
  - apply NoDup_singleton.
Qed.

Lemma update_first_ids e query coll coll' r :
  Collection.update_first query (ServiceRequestSchema.set_estado e) coll
    = Some (coll', r) →
  _id <$> coll' = _id <$> coll.
Proof.
  intros (l1 & d & l2 & -> & _ & _ & _ & ->)%update_first_Some.
  by rewrite !fmap_app, !fmap_cons.
Qed.

(** Unique [_id]s are an invariant: every store the handlers can reach
    from the empty one has them. *)
Lemma reachable_unique_ids db : reachable db → unique_ids db.
Proof.
  induction 1 as [|validate db userId oid body _ [IHp IHr]
                  |castDate isObjectId db userId oid body _ [IHp IHr]
                  |isObjectId db userId id b_estado _ [IHp IHr]].
  - split; simpl; constructor.
  - rewrite patients_post_unfold. simpl.
    destruct (Collection.save _ _ _ _) as [coll|e] eqn:Hsave; [|done].
    split; simpl; [|done]. by eapply save_unique.
  - rewrite requests_post_unfold. simpl.
    destruct (ServiceRequests.body_patient_ids body) as [ids|]; [|done].
    destruct (negb _); [done|].
    destruct (Collection.save _ _ _ _) as [coll|e] eqn:Hsave; [|done].
    split; simpl; [done|]. by eapply save_unique.
  - destruct b_estado as [e|]; [|done].
    destruct (decide (e ∈ ServiceRequests.statuses)) as [He|He].
    2: { unfold ServiceRequests.put.
         by rewrite bool_decide_eq_false_2 by done. }
    destruct (isObjectId id) eqn:Hcast;
      [|by rewrite put_uncastable by done].
    rewrite put_valid by done.
    destruct (Collection.update_first _ _ _) as [[coll r]|] eqn:Hf;
      [|done].
    split; simpl; [done|]. by rewrite (update_first_ids _ _ _ _ _ Hf).
Qed.

Section Create.

Variable castDate : string → option Z.
Variable isObjectId : string → bool.

Local Abbreviation post := (ServiceRequests.post castDate isObjectId).
Local Abbreviation denied := ServiceRequests.denied.

(** The ownership query of the create call. *)
Local Abbreviation owned ids userId :=
  (λ d : object, in_ (VStr <$> ids) (d !! "_id")
                 && eq_ (VStr userId) (d !! "usuario_id")).

Lemma owned_true ids userId d :
  owned ids userId d = true ↔
  (∃ i, i ∈ ids ∧ d !! "_id" = Some (VStr i))
  ∧ d !! "usuario_id" = Some (VStr userId).
Proof.
  rewrite andb_true_iff. unfold in_, eq_.
  rewrite bool_decide_eq_true. split.
  - intros [Hin Hown]. split; [|done].
    destruct (d !! "_id") as [v|]; [|done].
    apply bool_decide_eq_true in Hin.
    apply list_elem_of_fmap in Hin as (i & -> & Hi). eauto.
  - intros [(i & Hi & ->) Hown]. split; [|done].
    apply bool_decide_eq_true. by apply list_elem_of_fmap_2.
Qed.

Lemma post_count_mismatch db userId oid body ids :
  ServiceRequests.body_patient_ids body = Some ids →
  length (Collection.select (owned ids userId) (patients db)) ≠ length ids →
  post db userId oid body = (db, denied).
Proof.
  intros Hids Hne. rewrite requests_post_unfold. simpl. rewrite Hids.
  apply Nat.eqb_neq in Hne. by rewrite Hne.
Qed.

Lemma owned_count_le db userId ids :
  NoDup (PatientSchema.key <$> patients db) →
  length (Collection.select (owned ids userId) (patients db))
    ≤ length (remove_dups ids).
Proof.
  intros Huniq. apply select_by_id_bound; [done|].
  intros d _ Hq. by apply owned_true in Hq as [? _].
Qed.

(** C1. Whenever the patients matched by the ownership query are fewer
    than the ids supplied, the create call answers 403 and returns the
    store as it was, so no request is persisted. That is the case, in a
    store with unique patient [_id]s, as soon as one supplied id names no
    patient owned by the caller (a patient that does not exist or that
    is someone else's). *)
Theorem post_foreign_patient_forbidden db userId oid body ids :
  ServiceRequests.body_patient_ids body = Some ids →
  (length (Collection.select (owned ids userId) (patients db)) < length ids →
     post db userId oid body = (db, denied))
  ∧ (NoDup (PatientSchema.key <$> patients db) →
     (∃ id, id ∈ ids ∧
            ∀ d, d ∈ patients db → d !! "_id" = Some (VStr id) →
                 d !! "usuario_id" ≠ Some (VStr userId)) →
     length (Collection.select (owned ids userId) (patients db)) < length ids
     ∧ post db userId oid body = (db, denied)
     ∧ status (post db userId oid body).2 = 403
     ∧ requests (post db userId oid body).1 = requests db).
Proof.
  intros Hids.
  assert (length (Collection.select (owned ids userId) (patients db))
            < length ids → post db userId oid body = (db, denied)) as Hdeny.
  { intros Hlt. apply (post_count_mismatch _ _ _ _ ids); [done|lia]. }
  split; [done|].
  intros Huniq (id & Hid & Hforeign).
  assert (length (Collection.select (owned ids userId) (patients db))
          ≤ length (remove_dups (filter (λ i, i ≠ id) ids))) as Hle.
  { apply select_by_id_bound; [done|].
    intros d Hd [(i & Hi & Hdi) Hown]%owned_true.
    exists i. split; [|done]. apply list_elem_of_filter. split; [|done].
    intros ->. by apply (Hforeign d). }
  pose proof (length_remove_dups_le (filter (λ i, i ≠ id) ids)).
  assert (length (filter (λ i, i ≠ id) ids) < length ids).
  { apply (length_filter_lt _ _ id); [done|]. by intros ?. }
  assert (length (Collection.select (owned ids userId) (patients db))
            < length ids) as Hlt by lia.
  rewrite (Hdeny Hlt). done.
Qed.

(** C9. With unique patient [_id]s in the store, a list of ids that
    repeats one is answered 403 whoever owns the patients: the matched
    documents are at most the distinct ids, fewer than the raw list. *)
Theorem post_duplicate_ids_forbidden db userId oid body ids :
  NoDup (PatientSchema.key <$> patients db) →
  ServiceRequests.body_patient_ids body = Some ids →
  ¬ NoDup ids →
  length (Collection.select (owned ids userId) (patients db)) < length ids
  ∧ post db userId oid body = (db, denied).
Proof.
  intros Huniq Hids Hdup.
  pose proof (owned_count_le db userId ids Huniq).
  pose proof (length_remove_dups_lt ids Hdup).
  split; [lia|]. apply (post_count_mismatch _ _ _ _ ids); [done|lia].
Qed.

(** C6. A create call that succeeds appends one document to the
    requests and changes nothing else; that document has [estado]
    "pendiente" and both payment flags false, carries the generated
    [_id] and the caller as [user_id], and is returned whole, [_id]
    included, in the 201 response; the response of a successful patient
    creation has no [_id]. *)
Theorem post_created_defaults db userId oid body db' res :
  post db userId oid body = (db', res) →
  status res = 201 →
  (∃ newRequest ids,
      ServiceRequests.body_patient_ids body = Some ids
      ∧ requests db' = requests db ++ [newRequest]
      ∧ patients db' = patients db
      ∧ estado newRequest = "pendiente"
      ∧ pago_realizado newRequest = false
      ∧ pago_liberado newRequest = false
      ∧ res = Response 201 (Request newRequest)
      ∧ _id newRequest = oid
      ∧ user_id newRequest = Some userId
      ∧ nurse_id newRequest = ServiceRequests.body_nurse_id body
      ∧ patient_ids newRequest = ids)
  ∧ (∀ validate poid pbody pdb' pres,
       Patients.post validate db userId poid pbody = (pdb', pres) →
       status pres = 201 →
       ∃ patientData,
         json pres = PatientData patientData ∧ patientData !! "_id" = None).
Proof.
  intros Hpost Hok. split.
  - rewrite requests_post_unfold in Hpost. simpl in Hpost.
    destruct (ServiceRequests.body_patient_ids body) as [ids|];
      [|by simplify_eq/=].
    destruct (negb _); [by simplify_eq/=|].
    destruct (Collection.save _ _ _ _) as [coll|e] eqn:Hsave;
      [|by simplify_eq/=].
    apply save_Ok in Hsave as (_ & _ & ->). injection Hpost as <- <-.
    eexists _, ids. split_and!; done.
  - intros validate poid pbody pdb' pres Hp Hpok.
    rewrite patients_post_unfold in Hp. simpl in Hp.
    destruct (Collection.save _ _ _ _) as [coll|e];
      [|by simplify_eq/=].
    injection Hp as <- <-. eexists. split; [done|].
    apply lookup_delete_eq.
Qed.

End Create.

(** ** Patients *)

Lemma new_patient_owner oid (obj : object) v :
  obj !! "usuario_id" = Some v →
  PatientSchema.new oid obj !! "usuario_id" = Some v.
Proof.
  intros Hv. unfold PatientSchema.new.
  assert (filter (λ kv : string * value, kv.1 ∈ "_id" :: PatientSchema.paths)
            obj !! "usuario_id" = Some v) as Hf.
  { apply map_lookup_filter_Some. split; [done|]. simpl.
    unfold PatientSchema.paths. set_solver. }
  destruct (filter _ obj !! "_id"); [done|].
  by rewrite lookup_insert_ne.
Qed.

Lemma new_patient_has_id oid (obj : object) :
  is_Some (PatientSchema.new oid obj !! "_id").
Proof.
  unfold PatientSchema.new.
  destruct (filter _ obj !! "_id") eqn:Hid; [by rewrite Hid|].
  by rewrite lookup_insert_eq.
Qed.

Section PatientHandlers.

Variable validate : object → bool.

Local Abbreviation post := (Patients.post validate).

(** C8. A patient creation that succeeds appends one document whose
    [usuario_id] is the caller's id, whatever the body said; the 201
    response is that document without [_id], owner included. Every
    record of a patient-list response is without [_id] too. *)
Theorem patient_owner_stamped_id_stripped db userId oid body :
  (∀ db' res,
     post db userId oid body = (db', res) →
     status res = 201 →
     ∃ newPatient,
       patients db' = patients db ++ [newPatient]
       ∧ requests db' = requests db
       ∧ newPatient !! "usuario_id" = Some (VStr userId)
       ∧ is_Some (newPatient !! "_id")
       ∧ res = Response 201 (PatientData (delete "_id" newPatient))
       ∧ delete "_id" newPatient !! "_id" = None
       ∧ delete "_id" newPatient !! "usuario_id" = Some (VStr userId))
  ∧ (∀ q_page q_limit total page limit listed,
       json (Patients.get db userId q_page q_limit) =
         PatientPage total page limit listed →
       ∀ patientData, patientData ∈ listed → patientData !! "_id" = None).
Proof.
  split.
  - intros db' res Hpost Hok.
    rewrite patients_post_unfold in Hpost. simpl in Hpost.
    destruct (Collection.save _ _ _ _) as [coll|e] eqn:Hsave;
      [|by simplify_eq/=].
    apply save_Ok in Hsave as (_ & _ & ->). injection Hpost as <- <-.
    eexists. split_and!; try done.
    + apply new_patient_owner, lookup_insert_eq.
    + apply new_patient_has_id.
    + apply lookup_delete_eq.
    + rewrite lookup_delete_ne by done.
      apply new_patient_owner, lookup_insert_eq.
  - intros q_page q_limit total page limit listed Hget.
    rewrite patients_get_unfold in Hget. simpl in Hget.
    destruct (Collection.skip_limit _ _ _) as [found|e];
      [|by simplify_eq/=].
    injection Hget as <- <- <- <-.
    intros patientData (d & -> & _)%list_elem_of_fmap.
    apply lookup_delete_eq.
Qed.

End PatientHandlers.

(** ** Paginated lists *)

Section Pages.
Context {A : Type}.

Lemma skip_limit_page (skip limit : Z) (docs : list A) :
  (0 ≤ skip)%Z → (1 ≤ limit)%Z →
  Collection.skip_limit skip limit docs =
    Ok (take (Z.to_nat limit) (drop (Z.to_nat skip) docs)).
Proof.
  intros Hs Hl. unfold Collection.skip_limit.
  rewrite (proj2 (Z.ltb_ge skip 0)) by done.
  rewrite (proj2 (Z.eqb_neq limit 0)) by lia.
  by rewrite Z.abs_eq by lia.
Qed.

Lemma take_at_most (limit : Z) (docs : list A) :
  (1 ≤ limit)%Z →
  (Z.of_nat (length (take (Z.to_nat limit) docs)) ≤ limit)%Z.
Proof. intros Hl. rewrite length_take. lia. Qed.

End Pages.

Section Lists.

Local Abbreviation mine userId :=
  (λ d : object, eq_ (VStr userId) (d !! "usuario_id")).

(** C7, as the code has it. For a page of at least 1 and a limit of at
    least 1 (given, or the defaults 1 and 10), both list calls answer
    200 with at most [limit] items, namely the matching documents from
    position [(page - 1) * limit] on; the total is the number of all
    the caller's matching documents (for service requests, after the
    status filter), whatever the page and the limit; page and limit
    are echoed. *)
Theorem list_pagination db userId q_estado q_page q_limit :
  (1 ≤ page_of q_page)%Z →
  (1 ≤ limit_of q_limit)%Z →
  (∃ listed,
      Patients.get db userId q_page q_limit =
        Response 200
          (PatientPage (length (Collection.select (mine userId) (patients db)))
             (page_of q_page) (limit_of q_limit) listed)
      ∧ (Z.of_nat (length listed) ≤ limit_of q_limit)%Z
      ∧ listed =
          Patients.withoutID <$>
            take (Z.to_nat (limit_of q_limit))
              (drop (Z.to_nat ((page_of q_page - 1) * limit_of q_limit))
                 (Collection.select (mine userId) (patients db))))
  ∧ (∃ listed,
      ServiceRequests.get_list db userId q_estado q_page q_limit =
        Response 200
          (RequestPage
             (length (Collection.select
                        (ServiceRequests.list_filter userId q_estado)
                        (requests db)))
             (page_of q_page) (limit_of q_limit) listed)
      ∧ (Z.of_nat (length listed) ≤ limit_of q_limit)%Z
      ∧ listed =
          ServiceRequests.populate (patients db) <$>
            take (Z.to_nat (limit_of q_limit))
              (drop (Z.to_nat ((page_of q_page - 1) * limit_of q_limit))
                 (Collection.select
                    (ServiceRequests.list_filter userId q_estado)
                    (requests db))))
  ∧ page_of None = 1%Z ∧ limit_of None = 10%Z.
Proof.
  intros Hp Hl.
  assert (0 ≤ (page_of q_page - 1) * limit_of q_limit)%Z as Hs by nia.
  split_and!; try done.
  - eexists. rewrite patients_get_unfold. simpl.
    rewrite skip_limit_page by done. split_and!; [done| |done].
    rewrite length_fmap. by apply take_at_most.
  - eexists. rewrite requests_get_list_unfold. simpl.
    rewrite skip_limit_page by done. split_and!; [done| |done].
    rewrite length_fmap. by apply take_at_most.
Qed.

End Lists.

(** C7 as stated fails outside page >= 1 and limit >= 1: with limit -1
    one patient is returned, with limit 0 all of the caller's patients
    are, and with page 0 the negative skip is refused, so the answer is a
    500 that carries no total. *)
Lemma list_pagination_nonpositive_limit :
  (∃ listed,
      Patients.get Sample.db "A" (Some 1%Z) (Some (-1)%Z) =
        Response 200 (PatientPage 2 1 (-1) listed)
      ∧ length listed = 1
      ∧ ¬ (Z.of_nat (length listed) ≤ -1)%Z)
  ∧ (∃ listed,
      Patients.get Sample.db "A" (Some 1%Z) (Some 0%Z) =
        Response 200 (PatientPage 2 1 0 listed)
      ∧ length listed = 2
      ∧ ¬ (Z.of_nat (length listed) ≤ 0)%Z)
  ∧ Patients.get Sample.db "A" (Some 0%Z) (Some 10%Z) =
      Response 500 (Failure "Error al obtener los pacientes" BadValue).
Proof.
  split_and!.
  - eexists. split; [vm_compute; reflexivity|]. split; simpl; lia.
  - eexists. split; [vm_compute; reflexivity|]. split; simpl; lia.
  - vm_compute. reflexivity.
Qed.

(** ** The status filter of the list call *)


Lemma select_none {A : Type} (q : A → bool) (coll : list A) :
  (∀ d, d ∈ coll → q d = false) → Collection.select q coll = [].
Proof.
  intros Hq. unfold Collection.select.
  induction coll as [|d ds IH]; [done|].
  rewrite filter_cons. rewrite (Hq d) by left. simpl.
  apply IH. intros d' Hd'. apply Hq. by right.
Qed.

Section StatusFilter.

Local Abbreviation get_list := ServiceRequests.get_list.

(** The caller's requests whose [estado] is exactly [s]. *)
Local Abbreviation exact userId s :=
  (λ r, ServiceRequests.party userId r && bool_decide (estado r = s)).

(** What the list call answers over a given selection of documents. *)
Local Abbreviation answer db q_page q_limit selected :=
  (match Collection.skip_limit
           ((page_of q_page - 1) * limit_of q_limit) (limit_of q_limit)
           selected with
   | Ok found =>
       Response 200
         (RequestPage (length selected) (page_of q_page) (limit_of q_limit)
            (ServiceRequests.populate (patients db) <$> found))
   | Throw e => Response 500 (Failure "Error al obtener las solicitudes" e)
   end).




End StatusFilter.

(** ** The properties on the sample store *)

(** The three scenarios of the specification. *)

Example scenario_create_then_list :
  let db1 :=
    (Patients.post Sample.validate (Database [] []) "A" "p1"
       Sample.ana_body).1 in
  Patients.get db1 "A" (Some 1%Z) (Some 10%Z)
    = Response 200
        (PatientPage 1 1 10 [<["usuario_id" := VStr "A"]> Sample.ana_body])
  ∧ (<["usuario_id" := VStr "A"]> Sample.ana_body) !! "_id" = None
  ∧ (<["usuario_id" := VStr "A"]> Sample.ana_body) !! "name"
    = Some (VStr "Ana").
Proof. by vm_compute. Qed.

Example scenario_foreign_patient :
  ServiceRequests.post Sample.castDate Sample.isObjectId Sample.db "A"
      Sample.r2 (Sample.body ["p3"])
    = (Sample.db, ServiceRequests.denied).
Proof. by vm_compute. Qed.

Example scenario_nurse_completes :
  ∃ serviceRequest,
    (ServiceRequests.put Sample.isObjectId Sample.db "N" Sample.r1 (Some
        "completada")).2
      = Response 200
          (Updated "Solicitud completada exitosamente" serviceRequest)
    ∧ estado serviceRequest = "completada".
Proof. eexists. by vm_compute. Qed.

Lemma sample_patients_unique :
  NoDup (PatientSchema.key <$> patients Sample.db).
Proof. compute_done. Defined.

Lemma authenticateToken_outcomes_witness :
  Auth.authenticateToken Sample.jwt_verify (Auth.Request ∅ None)
    = Auth.sendStatus 401
  ∧ Auth.authenticateToken Sample.jwt_verify
      (Auth.Request {[ "authorization" := "Bearer forged" ]} None)
    = Auth.sendStatus 403
  ∧ Auth.authenticateToken Sample.jwt_verify
      (Auth.Request {[ "authorization" := "Bearer signed-by-us" ]} None)
    = Auth.next
        (Auth.Request {[ "authorization" := "Bearer signed-by-us" ]}
           (Some (VStr "A"))).
Proof.
  split_and!.
  - by apply (authenticateToken_outcomes Sample.jwt_verify
                (Auth.Request ∅ None)).
  - apply (authenticateToken_outcomes Sample.jwt_verify
             (Auth.Request {[ "authorization" := "Bearer forged" ]} None)).
    exists "forged". by split_and!.
  - apply (authenticateToken_outcomes Sample.jwt_verify
             (Auth.Request {[ "authorization" := "Bearer signed-by-us" ]}
                 None)).
    exists "signed-by-us", {[ "userId" := VStr "A" ]}. by split_and!.
Defined.

Lemma put_status_validation_witness :
  ServiceRequests.put Sample.isObjectId Sample.db "N" Sample.r1
    (Some "cancelada")
    = (Sample.db, Response 400 (Message "Estado inválido"))
  ∧ estado Sample.visit = "aceptada"
  ∧ status (ServiceRequests.put Sample.isObjectId Sample.db "N" Sample.r1
              (Some "pendiente")).2 = 200
  ∧ ServiceRequests.put Sample.isObjectId Sample.db "N" "r1"
      (Some "pendiente")
    = (Sample.db,
       Response 400 (Failure "Error al actualizar la solicitud" CastError)).
Proof.
  split_and!.
  - apply (put_status_validation Sample.isObjectId Sample.db "N" Sample.r1
             (Some "cancelada")).
    intros e [= <-]. compute_done.
  - reflexivity.
  - destruct (put_status_validation Sample.isObjectId Sample.db "N"
                Sample.r1 (Some "pendiente")) as [_ Hvalid].
    destruct (Hvalid "pendiente" eq_refl) as (_ & _ & _ & Hany);
      [compute_done|].
    apply (Hany "aceptada" Sample.visit);
      [apply list_elem_of_here|reflexivity..|vm_compute; reflexivity].
  - destruct (put_status_validation Sample.isObjectId Sample.db "N" "r1"
                (Some "pendiente")) as [_ Hvalid].
    destruct (Hvalid "pendiente" eq_refl) as (_ & Hthrows & _);
      [compute_done|].
    apply Hthrows. vm_compute. reflexivity.
Defined.



Lemma post_foreign_patient_forbidden_witness :
  ServiceRequests.body_patient_ids (Sample.body ["p1"; "p3"])
    = Some ["p1"; "p3"]
  ∧ Sample.bea !! "usuario_id" = Some (VStr "B")
  ∧ ServiceRequests.post Sample.castDate Sample.isObjectId Sample.db "A"
      Sample.r2
      (Sample.body ["p1"; "p3"])
    = (Sample.db, ServiceRequests.denied).
Proof.
  split_and!; [done..|].
  apply (post_foreign_patient_forbidden Sample.castDate Sample.isObjectId
      Sample.db "A" Sample.r2
           (Sample.body ["p1"; "p3"]) ["p1"; "p3"] eq_refl).
  - apply sample_patients_unique.
  - exists "p3". split; [compute_done|].
    intros d Hd Hid.
    apply elem_of_cons in Hd as [->|Hd]; [by vm_compute in Hid|].
    apply elem_of_cons in Hd as [->|Hd]; [by vm_compute in Hid|].
    apply list_elem_of_singleton in Hd as ->. by vm_compute.
Defined.

Lemma post_duplicate_ids_forbidden_witness :
  Sample.ana !! "usuario_id" = Some (VStr "A")
  ∧ ¬ NoDup ["p1"; "p1"]
  ∧ ServiceRequests.post Sample.castDate Sample.isObjectId Sample.db "A"
      Sample.r2
      (Sample.body ["p1"; "p1"])
    = (Sample.db, ServiceRequests.denied).
Proof.
  assert (¬ NoDup ["p1"; "p1"]) as Hdup by compute_done.
  split_and!; [done..|].
  apply (post_duplicate_ids_forbidden Sample.castDate Sample.isObjectId
      Sample.db "A" Sample.r2
           (Sample.body ["p1"; "p1"]) ["p1"; "p1"]
           sample_patients_unique eq_refl Hdup).
Defined.

Lemma post_created_defaults_witness :
  status (ServiceRequests.post Sample.castDate Sample.isObjectId Sample.db "A"
      Sample.r2
            (Sample.body ["p1"; "p2"])).2 = 201
  ∧ ∃ newRequest,
      requests (ServiceRequests.post Sample.castDate Sample.isObjectId
          Sample.db "A" Sample.r2
                  (Sample.body ["p1"; "p2"])).1
        = [Sample.visit; newRequest]
      ∧ json (ServiceRequests.post Sample.castDate Sample.isObjectId Sample.db
          "A" Sample.r2
                (Sample.body ["p1"; "p2"])).2 = Request newRequest
      ∧ _id newRequest = Sample.r2
      ∧ estado newRequest = "pendiente"
      ∧ pago_realizado newRequest = false
      ∧ pago_liberado newRequest = false.
Proof.
  split; [done|].
  destruct (post_created_defaults Sample.castDate Sample.isObjectId Sample.db
      "A" Sample.r2
              (Sample.body ["p1"; "p2"])
              (ServiceRequests.post Sample.castDate Sample.isObjectId
                  Sample.db "A" Sample.r2
                 (Sample.body ["p1"; "p2"])).1
              (ServiceRequests.post Sample.castDate Sample.isObjectId
                  Sample.db "A" Sample.r2
                 (Sample.body ["p1"; "p2"])).2)
    as [(newRequest & ids & _ & Hreqs & _ & He & Hp1 & Hp2 & Hres & Hid & _) _];
    [done..|].
  exists newRequest. split_and!; try done. by rewrite Hres.
Defined.

Lemma patient_owner_stamped_id_stripped_witness :
  Sample.carla !! "usuario_id" = Some (VStr "B")
  ∧ status (Patients.post Sample.validate Sample.db "A" "p4" Sample.carla).2
    = 201
  ∧ (∃ newPatient,
       patients (Patients.post Sample.validate Sample.db "A" "p4"
                   Sample.carla).1
         = patients Sample.db ++ [newPatient]
       ∧ newPatient !! "usuario_id" = Some (VStr "A")
       ∧ json (Patients.post Sample.validate Sample.db "A" "p4"
                 Sample.carla).2
         = PatientData (delete "_id" newPatient))
  ∧ (∀ patientData,
       patientData ∈ [delete "_id" Sample.ana; delete "_id" Sample.luis] →
       patientData !! "_id" = None).
Proof.
  destruct (patient_owner_stamped_id_stripped Sample.validate Sample.db "A"
              "p4" Sample.carla) as [Hpost Hget].
  split_and!.
  - by vm_compute.
  - by vm_compute.
  - destruct (Hpost
                (Patients.post Sample.validate Sample.db "A" "p4"
                   Sample.carla).1
                (Patients.post Sample.validate Sample.db "A" "p4"
                   Sample.carla).2)
      as (newPatient & Hdb & _ & Hown & _ & Hres & _).
    + apply surjective_pairing.
    + by vm_compute.
    + exists newPatient. split_and!.
      * exact Hdb.
      * exact Hown.
      * by rewrite Hres.
  - apply (Hget None None 2 1%Z 10%Z). by vm_compute.
Defined.

Lemma list_pagination_witness :
  (1 ≤ page_of (Some 2%Z))%Z ∧ (1 ≤ limit_of (Some 1%Z))%Z
  ∧ Patients.get Sample.db "A" (Some 2%Z) (Some 1%Z)
    = Response 200 (PatientPage 2 2 1 [delete "_id" Sample.luis])
  ∧ ∃ listed,
      ServiceRequests.get_list Sample.db "N" (Some "aceptada") None None
        = Response 200 (RequestPage 1 1 10 listed)
      ∧ (Z.of_nat (length listed) ≤ 10)%Z.
Proof.
  assert (1 ≤ page_of (Some 2%Z))%Z as Hp by (by vm_compute).
  assert (1 ≤ limit_of (Some 1%Z))%Z as Hl by (by vm_compute).
  assert (1 ≤ page_of None)%Z as Hp' by (by vm_compute).
  assert (1 ≤ limit_of None)%Z as Hl' by (by vm_compute).
  split_and!; [exact Hp|exact Hl| |].
  - destruct (list_pagination Sample.db "A" None (Some 2%Z) (Some 1%Z) Hp Hl)
      as ((listed & Hget & _ & ->) & _).
    rewrite Hget. by vm_compute.
  - destruct (list_pagination Sample.db "N" (Some "aceptada") None None Hp' Hl')
      as (_ & (listed & Hget & Hle & _) & _).
    exists listed. split; [|exact Hle]. rewrite Hget. by vm_compute.
Defined.


(** * Further properties of the handlers *)

(** ** The auth gate: which part of the header is the token *)

Lemma split_app_sep sep w rest :
  occurs sep w = false →
  split sep (w +:+ String sep rest) = w :: split sep rest.
Proof.
  induction w as [|c w IH]; intros Hw.
  - change ("" +:+ String sep rest) with (String sep rest). simpl.
    by rewrite Ascii.eqb_refl.
  - change (String c w +:+ String sep rest)
      with (String c (w +:+ String sep rest)).
    simpl in *. apply orb_false_iff in Hw as [Hc Hw].
    by rewrite Hc, (IH Hw).
Qed.

Lemma occurs_app_sep sep w rest : occurs sep (w +:+ String sep rest) = true.
Proof.
  induction w as [|c w IH].
  - change ("" +:+ String sep rest) with (String sep rest). simpl.
    by rewrite Ascii.eqb_refl.
  - change (String c w +:+ String sep rest)
      with (String c (w +:+ String sep rest)).
    simpl. rewrite IH. apply orb_true_r.
Qed.

Section GateHeader.

Variable jwt_verify : string → string → Auth.verified.

Local Abbreviation gate := (Auth.authenticateToken jwt_verify).

(** What the gate does once it holds a token. *)
Local Abbreviation verdict req t :=
  (match jwt_verify t Auth.secret with
   | Auth.err => Auth.sendStatus 403
   | Auth.decoded user =>
       Auth.next (Auth.Request (Auth.headers req) (user !! "userId"))
   end).

Lemma gate_second_word (req : Auth.request) (h w tail t : string) :
  Auth.headers req !! "authorization" = Some h →
  h = w +:+ String " "%char tail →
  occurs " "%char w = false →
  split " "%char tail !! 0%nat = Some t →
  t ≠ "" →
  gate req = verdict req t.
Proof.
  intros Hh -> Hw Htail Hne.
  unfold Auth.authenticateToken, Auth.token_of. rewrite Hh.
  rewrite bool_decide_eq_false_2.
  2: { intros Heq. pose proof (occurs_app_sep " "%char w tail) as Ho.
       by rewrite Heq in Ho. }
  rewrite split_app_sep by done. simpl.
  destruct (split " "%char tail) as [|t' ws]; simplify_eq/=.
  by rewrite bool_decide_eq_false_2 by done.
Qed.

(** X1. The gate takes the second space-separated word of the header
    as the token and never looks at the first: [w t], whatever the
    scheme word [w] is (also when further words follow), is treated as
    [Bearer t] is. *)
Theorem gate_ignores_scheme (req : Auth.request) (w t : string) :
  occurs " "%char w = false →
  occurs " "%char t = false →
  t ≠ "" →
  (Auth.headers req !! "authorization" = Some (w +:+ " " +:+ t) →
     gate req = verdict req t)
  ∧ (∀ more,
       Auth.headers req !! "authorization"
         = Some (w +:+ " " +:+ t +:+ " " +:+ more) →
       gate req = verdict req t).
Proof.
  intros Hw Ht Hne. split.
  - intros Hh. apply (gate_second_word req _ w t t Hh); [done..| |done].
    by rewrite split_no_sep by done.
  - intros more Hh.
    apply (gate_second_word req _ w (t +:+ " " +:+ more) t Hh);
      [done..| |done].
    change (t +:+ " " +:+ more) with (t +:+ String " "%char more).
    by rewrite split_app_sep by done.
Qed.

(** X2. A header that carries the token alone, without a scheme word
    and a space before it, is answered 401 without being verified; so
    is a header with two spaces after the scheme word. *)
Theorem gate_needs_second_word (req : Auth.request) (h : string) :
  Auth.headers req !! "authorization" = Some h →
  (occurs " "%char h = false → gate req = Auth.sendStatus 401)
  ∧ (∀ w more,
       occurs " "%char w = false →
       h = w +:+ "  " +:+ more →
       gate req = Auth.sendStatus 401).
Proof.
  intros Hh. split.
  - intros Hno. unfold Auth.authenticateToken, Auth.token_of. rewrite Hh.
    case_bool_decide; [done|]. by rewrite split_no_sep by done.
  - intros w more Hw ->.
    unfold Auth.authenticateToken, Auth.token_of. rewrite Hh.
    rewrite bool_decide_eq_false_2.
    2: { intros Heq.
         pose proof (occurs_app_sep " "%char w (String " "%char more)) as Ho.
         change (w +:+ "  " +:+ more)
           with (w +:+ String " "%char (String " "%char more)) in Heq.
         by rewrite Heq in Ho. }
    change (w +:+ "  " +:+ more)
      with (w +:+ String " "%char (String " "%char more)).
    by rewrite split_app_sep by done.
Qed.

End GateHeader.

Section IssueThenGate.

Variable jwt_sign : object → string → string → string.
Variable jwt_verify : string → string → Auth.verified.

(** X3. A token issued by [generateToken] for a user, sent as
    [Authorization: Bearer <token>], passes the gate with that user's id
    attached, provided the library verifies under a key what it signed
    under that key (here within the hour) and the token is one
    non-empty word: issuing and checking use the same secret. *)
Theorem issued_token_passes (req : Auth.request) (userId : value)
    (user : object) :
  jwt_verify (jwt_sign {[ "userId" := userId ]} Auth.secret "1h") Auth.secret
    = Auth.decoded user →
  user !! "userId" = Some userId →
  occurs " "%char (Auth.generateToken jwt_sign userId) = false →
  Auth.generateToken jwt_sign userId ≠ "" →
  Auth.headers req !! "authorization"
    = Some ("Bearer " +:+ Auth.generateToken jwt_sign userId) →
  Auth.authenticateToken jwt_verify req
    = Auth.next (Auth.Request (Auth.headers req) (Some userId)).
Proof.
  intros Hverify Huser Hword Hne Hh.
  rewrite (gate_second_word jwt_verify req _ "Bearer"
             (Auth.generateToken jwt_sign userId)
             (Auth.generateToken jwt_sign userId) Hh); [|done..| |done].
  - unfold Auth.generateToken. by rewrite Hverify, Huser.
  - by rewrite split_no_sep by done.
Qed.

End IssueThenGate.

(** ** Selections and pages *)

Section Selections.
Context {A : Type}.

Lemma elem_of_select (query : A → bool) (coll : list A) (d : A) :
  d ∈ Collection.select query coll ↔ query d = true ∧ d ∈ coll.
Proof.
  unfold Collection.select. rewrite list_elem_of_filter.
  by rewrite Is_true_true.
Qed.

Lemma select_snoc (query : A → bool) (coll : list A) (d : A) :
  Collection.select query (coll ++ [d]) =
    Collection.select query coll ++ (if query d then [d] else []).
Proof.
  unfold Collection.select. rewrite filter_app. f_equal.
  rewrite filter_cons, filter_nil. by destruct (query d).
Qed.

Lemma skip_limit_elem (skip limit : Z) (docs found : list A) (d : A) :
  Collection.skip_limit skip limit docs = Ok found → d ∈ found → d ∈ docs.
Proof.
  unfold Collection.skip_limit. destruct (skip <? 0)%Z; [done|].
  intros [= <-] Hd.
  assert (d ∈ drop (Z.to_nat skip) docs) as Hdrop.
  { destruct (limit =? 0)%Z; [done|].
    eapply elem_of_sublist; [done|apply sublist_take]. }
  eapply elem_of_sublist; [done|apply sublist_drop].
Qed.

(** Pages of size [n] laid end to end are the first [k * n] documents. *)
Lemma pages_concat (n k : nat) (docs : list A) :
  concat ((λ i, take n (drop (i * n) docs)) <$> seq 0 k) = take (k * n) docs.
Proof.
  induction k as [|k IH]; [done|].
  rewrite seq_S, fmap_app, concat_app, IH. simpl.
  rewrite app_nil_r, take_take_drop. f_equal. lia.
Qed.

Lemma page_lookup_last (n : nat) (docs : list A) (d : A) :
  0 < n →
  d ∈ take n (drop (length docs `div` n * n) (docs ++ [d])).
Proof.
  intros Hn. apply list_elem_of_lookup.
  exists (length docs `mod` n).
  rewrite lookup_take_lt by (by apply Nat.mod_upper_bound; lia).
  rewrite lookup_drop.
  replace (length docs `div` n * n + length docs `mod` n) with (length docs).
  - by rewrite lookup_app_r, Nat.sub_diag by done.
  - rewrite (Nat.div_mod_eq (length docs) n) at 1. lia.
Qed.

End Selections.

(** ** Patients: the list and what creation does to it *)

Section PatientLists.

Local Abbreviation mine userId :=
  (λ d : object, eq_ (VStr userId) (d !! "usuario_id")).

Lemma mine_true userId (d : object) :
  mine userId d = true ↔ d !! "usuario_id" = Some (VStr userId).
Proof. unfold eq_. apply bool_decide_eq_true. Qed.

(** X4. Whatever the page and the limit, every record the patient list
    returns is a stored patient of the caller with its [_id] removed: it
    carries the caller's id as owner, never another user's. *)
Theorem patients_get_only_own db userId q_page q_limit
    total page limit listed :
  json (Patients.get db userId q_page q_limit)
    = PatientPage total page limit listed →
  ∀ patientData, patientData ∈ listed →
    patientData !! "usuario_id" = Some (VStr userId)
    ∧ (∀ other, other ≠ userId →
         patientData !! "usuario_id" ≠ Some (VStr other))
    ∧ ∃ patient, patient ∈ patients db
                 ∧ patient !! "usuario_id" = Some (VStr userId)
                 ∧ patientData = delete "_id" patient.
Proof.
  intros Hget patientData Hin.
  rewrite patients_get_unfold in Hget. simpl in Hget.
  destruct (Collection.skip_limit _ _ _) as [found|e] eqn:Hpage;
    [|by simplify_eq/=].
  injection Hget as <- <- <- <-.
  apply list_elem_of_fmap in Hin as (patient & -> & Hin).
  apply (skip_limit_elem _ _ _ _ _ Hpage) in Hin.
  apply elem_of_select in Hin as [Hown%mine_true Hin].
  assert (delete "_id" patient !! "usuario_id" = Some (VStr userId)) as Hd
    by (by rewrite lookup_delete_ne by done).
  split_and!; [done| |by eauto].
  intros other Hne. unfold Patients.withoutID. rewrite Hd. congruence.
Qed.

(** X7. For a limit of at least 1 the pages of the patient list are
    consecutive slices of the caller's patients: page [i + 1] is answered
    200 with the same total, pages 1 to [k] laid end to end are the first
    [k * limit] patients, all of them once [k * limit] reaches the total,
    and a page that starts at or past the total is empty. *)
Theorem patients_get_pages db userId (limit : Z) :
  (1 ≤ limit)%Z →
  ∃ page : nat → list object,
    (∀ i, Patients.get db userId (Some (Z.of_nat i + 1)%Z) (Some limit)
          = Response 200
              (PatientPage
                 (length (Collection.select (mine userId) (patients db)))
                 (Z.of_nat i + 1) limit (page i)))
    ∧ (∀ k, concat (page <$> seq 0 k)
            = Patients.withoutID <$>
                take (k * Z.to_nat limit)
                  (Collection.select (mine userId) (patients db)))
    ∧ (∀ k, length (Collection.select (mine userId) (patients db))
              ≤ k * Z.to_nat limit →
            concat (page <$> seq 0 k)
            = Patients.withoutID <$>
                Collection.select (mine userId) (patients db)
            ∧ page k = []).
Proof.
  intros Hl.
  set (own := Collection.select (mine userId) (patients db)).
  exists (λ i, Patients.withoutID <$>
                 take (Z.to_nat limit) (drop (i * Z.to_nat limit) own)).
  assert (∀ k, concat ((λ i, Patients.withoutID <$>
                          take (Z.to_nat limit)
                            (drop (i * Z.to_nat limit) own)) <$> seq 0 k)
               = Patients.withoutID <$> take (k * Z.to_nat limit) own)
    as Hconcat.
  { intros k. induction k as [|k IH]; [done|].
    rewrite seq_S, fmap_app, concat_app, IH. simpl.
    rewrite app_nil_r, <- fmap_app, take_take_drop. do 2 f_equal. lia. }
  split_and!.
  - intros i. rewrite patients_get_unfold. simpl. fold own.
    unfold page_of, limit_of. simpl.
    rewrite skip_limit_page by lia.
    replace (Z.of_nat i + 1 - 1)%Z with (Z.of_nat i) by lia.
    by rewrite Z2Nat.inj_mul, Nat2Z.id by lia.
  - done.
  - intros k Hk. rewrite Hconcat, take_ge, drop_ge by done.
    by rewrite take_nil.
Qed.

End PatientLists.

Section PatientCreation.

Variable validate : object → bool.

Local Abbreviation post := (Patients.post validate).
Local Abbreviation mine userId :=
  (λ d : object, eq_ (VStr userId) (d !! "usuario_id")).

Lemma patients_post_cases db userId oid body :
  let newPatient :=
    PatientSchema.new oid (<["usuario_id" := VStr userId]> body) in
  (post db userId oid body
     = (Database (patients db ++ [newPatient]) (requests db),
        Response 201 (PatientData (delete "_id" newPatient)))
   ∧ newPatient !! "usuario_id" = Some (VStr userId))
  ∨ (∃ e, post db userId oid body
          = (db, Response 400 (Failure "Error al crear el paciente" e))).
Proof.
  intros newPatient. rewrite patients_post_unfold. simpl.
  destruct (Collection.save _ _ _ _) as [coll|e] eqn:Hsave; [left|by eauto].
  apply save_Ok in Hsave as (_ & _ & ->). split; [done|].
  apply new_patient_owner, lookup_insert_eq.
Qed.

(** X5. Creating a patient is all or nothing: the answer is 201 or 400;
    on 400 the store is what it was; in no case are the service requests
    touched or a stored patient changed or removed (the patients before
    are a prefix of the patients after, at most one longer). *)
Theorem patients_post_atomic db userId oid body :
  (status (post db userId oid body).2 = 201
   ∨ status (post db userId oid body).2 = 400)
  ∧ (status (post db userId oid body).2 ≠ 201 →
     (post db userId oid body).1 = db)
  ∧ requests (post db userId oid body).1 = requests db
  ∧ patients db `prefix_of` patients (post db userId oid body).1
  ∧ length (patients (post db userId oid body).1) ≤ S (length (patients db)).
Proof.
  destruct (patients_post_cases db userId oid body) as [[-> _]|[e ->]];
    simpl.
  - split_and!; [by left|done|done|by apply prefix_app_r|].
    rewrite length_app. simpl. lia.
  - split_and!; [by right|done|done|done|lia].
Qed.

(** X6. After a patient creation that succeeds, the caller's total is
    one more; for every limit of at least 1 some page of the caller's
    list carries the new record as the creation response returned it,
    and the first page does when the limit reaches the new total
    (whatever order the store lists in: no position is promised); the
    list of every other user is answered exactly as before. *)
Theorem patients_post_then_get db userId oid body db' res :
  post db userId oid body = (db', res) →
  status res = 201 →
  ∃ patientData,
    json res = PatientData patientData
    ∧ length (Collection.select (mine userId) (patients db'))
      = S (length (Collection.select (mine userId) (patients db)))
    ∧ (∀ limit : Z, (1 ≤ limit)%Z →
         ∃ page total listed,
           (1 ≤ page)%Z
           ∧ Patients.get db' userId (Some page) (Some limit)
             = Response 200 (PatientPage total page limit listed)
           ∧ patientData ∈ listed)
    ∧ (∀ limit : Z,
         (Z.of_nat (length (Collection.select (mine userId) (patients db')))
            ≤ limit)%Z →
         ∃ total listed,
           Patients.get db' userId (Some 1%Z) (Some limit)
           = Response 200 (PatientPage total 1 limit listed)
           ∧ patientData ∈ listed)
    ∧ (∀ other q_page q_limit, other ≠ userId →
         Patients.get db' other q_page q_limit
         = Patients.get db other q_page q_limit).
Proof.
  intros Hpost Hok.
  destruct (patients_post_cases db userId oid body) as [[Heq Hown]|[e Heq]];
    rewrite Heq in Hpost; injection Hpost as <- <-; [|done].
  set (newPatient :=
         PatientSchema.new oid (<["usuario_id" := VStr userId]> body)) in *.
  assert (Collection.select (mine userId) (patients db ++ [newPatient])
          = Collection.select (mine userId) (patients db) ++ [newPatient])
    as Hmine.
  { rewrite select_snoc. by rewrite (proj2 (mine_true userId newPatient)). }
  exists (delete "_id" newPatient). simpl. split_and!.
  - done.
  - rewrite Hmine, length_app. simpl. lia.
  - intros limit Hl.
    exists (Z.of_nat
              (length (Collection.select (mine userId) (patients db))
                 `div` Z.to_nat limit) + 1)%Z.
    eexists _, _. split; [lia|].
    rewrite patients_get_unfold. simpl.
    unfold page_of, limit_of. simpl.
    rewrite skip_limit_page by lia. split; [done|].
    apply list_elem_of_fmap_2. rewrite Hmine.
    match goal with
    | |- context [(?n + 1 - 1)%Z] => replace (n + 1 - 1)%Z with n by lia
    end.
    rewrite Z2Nat.inj_mul, Nat2Z.id by lia.
    apply page_lookup_last. lia.
  - intros limit Hall. rewrite Hmine, length_app in Hall. simpl in Hall.
    eexists _, _. rewrite patients_get_unfold. cbv zeta.
    change (page_of (Some 1%Z)) with 1%Z.
    change (limit_of (Some limit)) with limit.
    rewrite skip_limit_page by lia. split; [done|].
    apply list_elem_of_fmap_2. cbn [patients]. rewrite Hmine.
    change (Z.to_nat ((1 - 1) * limit)) with 0. rewrite drop_0.
    rewrite take_ge by (rewrite length_app; simpl; lia).
    apply elem_of_app. right. left.
  - intros other q_page q_limit Hne. rewrite !patients_get_unfold. simpl.
    rewrite select_snoc.
    assert (mine other newPatient = false) as ->.
    { apply not_true_is_false. intros Ho%mine_true. congruence. }
    by rewrite app_nil_r.
Qed.

End PatientCreation.

(** ** Service requests: reading *)

Lemma requests_get_one_unfold isObjectId db userId id :
  isObjectId id = true →
  ServiceRequests.get_one isObjectId db userId id =
    match head (Collection.select
                  (λ r, bool_decide (_id r = id)
                        && ServiceRequests.party userId r)
                  (requests db)) with
    | Some r =>
        Response 200 (Detail (ServiceRequests.populate (patients db) r))
    | None => Response 404 (Message "Solicitud no encontrada")
    end.
Proof.
  intros Hid.
  unfold ServiceRequests.get_one, try_catch, Collection.findOne,
    ServiceRequestSchema.castId.
  rewrite Hid. simpl. by destruct (head _).
Qed.


Lemma party_true userId r :
  ServiceRequests.party userId r = true ↔
  user_id r = Some userId ∨ nurse_id r = Some userId.
Proof.
  unfold ServiceRequests.party.
  by rewrite orb_true_iff, !bool_decide_eq_true.
Qed.

Lemma visible_true userId id r :
  bool_decide (_id r = id) && ServiceRequests.party userId r = true ↔
  _id r = id ∧ (user_id r = Some userId ∨ nurse_id r = Some userId).
Proof. by rewrite andb_true_iff, bool_decide_eq_true, party_true. Qed.

(** In a collection with unique ids, the first document a query selects
    is the one document with a given id, when the query selects it and
    nothing with another id. *)
Lemma head_select_unique (query : ServiceRequest → bool)
    (coll : list ServiceRequest) (r : ServiceRequest) :
  NoDup (_id <$> coll) →
  r ∈ coll → query r = true →
  (∀ x, query x = true → _id x = _id r) →
  head (Collection.select query coll) = Some r.
Proof.
  intros Huniq Hr Hq Hid. unfold Collection.select.
  induction coll as [|d ds IH]; [by apply elem_of_nil in Hr|].
  rewrite fmap_cons in Huniq. apply NoDup_cons in Huniq as [Hd Huniq].
  rewrite filter_cons. apply elem_of_cons in Hr as [<-|Hr].
  - by rewrite Hq.
  - destruct (query d) eqn:Hqd; simpl; [|by apply IH].
    destruct Hd. rewrite (Hid d Hqd). by apply list_elem_of_fmap_2.
Qed.

Section RequestReads.

Variable isObjectId : string → bool.

Local Abbreviation get_list := ServiceRequests.get_list.
Local Abbreviation get_one := (ServiceRequests.get_one isObjectId).

(** X8. Whatever the filter, page and limit, every request the list
    call returns is a stored request that has the caller as requester or
    as nurse, and, under a non-empty [estado] filter, has exactly that
    status. *)
Theorem requests_get_list_only_party db userId q_estado q_page q_limit
    total page limit listed :
  json (get_list db userId q_estado q_page q_limit)
    = RequestPage total page limit listed →
  ∀ item, item ∈ listed →
    request_of item ∈ requests db
    ∧ (user_id (request_of item) = Some userId
       ∨ nurse_id (request_of item) = Some userId)
    ∧ (∀ s, q_estado = Some s → s ≠ "" → estado (request_of item) = s).
Proof.
  intros Hget item Hin.
  rewrite requests_get_list_unfold in Hget. simpl in Hget.
  destruct (Collection.skip_limit _ _ _) as [found|e] eqn:Hpage;
    [|by simplify_eq/=].
  injection Hget as <- <- <- <-.
  apply list_elem_of_fmap in Hin as (r & -> & Hin).
  apply (skip_limit_elem _ _ _ _ _ Hpage) in Hin.
  apply elem_of_select in Hin as [Hq Hin].
  unfold ServiceRequests.list_filter in Hq.
  apply andb_true_iff in Hq as [Hparty%party_true Hestado].
  split_and!; [done..|].
  intros s -> Hs. simpl in Hestado.
  rewrite bool_decide_eq_false_2 in Hestado by done.
  by apply bool_decide_eq_true in Hestado.
Qed.


(** X10. For a limit of at least 1 the pages of the request list are
    consecutive slices of the caller's matching requests: page [i + 1]
    is answered 200 with the same total, pages 1 to [k] laid end to end
    are the first [k * limit] of them, all of them once [k * limit]
    reaches the total, and a page that starts at or past the total is
    empty. *)
Theorem requests_get_list_pages db userId q_estado (limit : Z) :
  (1 ≤ limit)%Z →
  ∃ page : nat → list populated,
    (∀ i, get_list db userId q_estado (Some (Z.of_nat i + 1)%Z) (Some limit)
          = Response 200
              (RequestPage
                 (length (Collection.select
                            (ServiceRequests.list_filter userId q_estado)
                            (requests db)))
                 (Z.of_nat i + 1) limit (page i)))
    ∧ (∀ k, concat (page <$> seq 0 k)
            = ServiceRequests.populate (patients db) <$>
                take (k * Z.to_nat limit)
                  (Collection.select
                     (ServiceRequests.list_filter userId q_estado)
                     (requests db)))
    ∧ (∀ k, length (Collection.select
                      (ServiceRequests.list_filter userId q_estado)
                      (requests db))
              ≤ k * Z.to_nat limit →
            concat (page <$> seq 0 k)
            = ServiceRequests.populate (patients db) <$>
                Collection.select
                  (ServiceRequests.list_filter userId q_estado)
                  (requests db)
            ∧ page k = []).
Proof.
  intros Hl.
  set (sel := Collection.select
                (ServiceRequests.list_filter userId q_estado) (requests db)).
  exists (λ i, ServiceRequests.populate (patients db) <$>
                 take (Z.to_nat limit) (drop (i * Z.to_nat limit) sel)).
  assert (∀ k, concat ((λ i, ServiceRequests.populate (patients db) <$>
                          take (Z.to_nat limit)
                            (drop (i * Z.to_nat limit) sel)) <$> seq 0 k)
               = ServiceRequests.populate (patients db) <$>
                   take (k * Z.to_nat limit) sel)
    as Hconcat.
  { intros k. induction k as [|k IH]; [done|].
    rewrite seq_S, fmap_app, concat_app, IH. simpl.
    rewrite app_nil_r, <- fmap_app, take_take_drop. do 2 f_equal. lia. }
  split_and!.
  - intros i. rewrite requests_get_list_unfold. simpl. fold sel.
    unfold page_of, limit_of. simpl.
    rewrite skip_limit_page by lia.
    replace (Z.of_nat i + 1 - 1)%Z with (Z.of_nat i) by lia.
    by rewrite Z2Nat.inj_mul, Nat2Z.id by lia.
  - done.
  - intros k Hk. rewrite Hconcat, take_ge, drop_ge by done.
    by rewrite take_nil.
Qed.

End RequestReads.

(** ** Service requests: the ownership check, both ways *)

Section Ownership.

Local Abbreviation owned ids userId :=
  (λ d : object, in_ (VStr <$> ids) (d !! "_id")
                 && eq_ (VStr userId) (d !! "usuario_id")).

(** A stored patient with the given id that the user owns. *)
Local Abbreviation owns pats userId id :=
  (∃ d : object, d ∈ (pats : list object) ∧ d !! "_id" = Some (VStr id)
                 ∧ d !! "usuario_id" = Some (VStr userId)).

Lemma owns_dec (pats : list object) userId id :
  owns pats userId id ∨ ¬ owns pats userId id.
Proof.
  destruct (decide (Exists (λ d : object,
              d !! "_id" = Some (VStr id)
              ∧ d !! "usuario_id" = Some (VStr userId)) pats)) as [He|He].
  - left. apply Exists_exists in He as (d & ? & ? & ?). eauto.
  - right. intros (d & ? & ? & ?). apply He, Exists_exists. eauto.
Qed.

Lemma owned_count_lt_foreign (pats : list object) userId ids id :
  NoDup (PatientSchema.key <$> pats) →
  id ∈ ids → ¬ owns pats userId id →
  length (Collection.select (owned ids userId) pats) < length ids.
Proof.
  intros Huniq Hid Hforeign.
  assert (length (Collection.select (owned ids userId) pats)
          ≤ length (remove_dups (filter (λ i, i ≠ id) ids))) as Hle.
  { apply select_by_id_bound; [done|].
    intros d Hd [(i & Hi & Hdi) Hown]%owned_true.
    exists i. split; [|done]. apply list_elem_of_filter. split; [|done].
    intros ->. apply Hforeign. eauto. }
  pose proof (length_remove_dups_le (filter (λ i, i ≠ id) ids)).
  assert (length (filter (λ i, i ≠ id) ids) < length ids).
  { apply (length_filter_lt _ _ id); [done|]. by intros ?. }
  lia.
Qed.

Lemma owned_count_ge (pats : list object) userId ids :
  NoDup ids →
  (∀ id, id ∈ ids → owns pats userId id) →
  length ids ≤ length (Collection.select (owned ids userId) pats).
Proof.
  intros Hnd Hall.
  assert ((λ i, Some (VStr i)) <$> ids ⊆+
          PatientSchema.key <$> Collection.select (owned ids userId) pats)
    as Hsub.
  { apply NoDup_submseteq.
    - apply NoDup_fmap_2; [|done]. by intros i j [= ->].
    - intros k (i & -> & Hi)%list_elem_of_fmap.
      destruct (Hall i Hi) as (d & Hd & Hdi & Hown).
      apply list_elem_of_fmap. exists d. split; [done|].
      apply elem_of_select. split; [|done]. apply owned_true. eauto. }
  apply submseteq_length in Hsub. by rewrite !length_fmap in Hsub.
Qed.

(** With unique patient ids, the ownership check passes exactly for a
    list of distinct ids that each name a patient of the caller. *)
Lemma owned_count_eq_iff (pats : list object) userId ids :
  NoDup (PatientSchema.key <$> pats) →
  length (Collection.select (owned ids userId) pats) = length ids ↔
  NoDup ids ∧ ∀ id, id ∈ ids → owns pats userId id.
Proof.
  intros Huniq. split.
  - intros Heq. split.
    + destruct (decide (NoDup ids)) as [|Hdup]; [done|].
      pose proof (select_by_id_bound pats (owned ids userId) ids Huniq) as Hle.
      pose proof (length_remove_dups_lt ids Hdup).
      assert (length (Collection.select (owned ids userId) pats)
              ≤ length (remove_dups ids)); [|lia].
      apply Hle. intros d _ Hq. by apply owned_true in Hq as [? _].
    + intros id Hid. destruct (owns_dec pats userId id) as [|Hno]; [done|].
      pose proof (owned_count_lt_foreign pats userId ids id Huniq Hid Hno).
      lia.
  - intros [Hnd Hall]. apply Nat.le_antisymm.
    + pose proof (length_remove_dups_le ids).
      assert (length (Collection.select (owned ids userId) pats)
              ≤ length (remove_dups ids)); [|lia].
      apply select_by_id_bound; [done|].
      intros d _ Hq. by apply owned_true in Hq as [? _].
    + by apply owned_count_ge.
Qed.

End Ownership.

(** ** Service requests: creating *)

Section RequestCreation.

Variable castDate : string → option Z.
Variable isObjectId : string → bool.

Local Abbreviation post := (ServiceRequests.post castDate isObjectId).
Local Abbreviation get_one := (ServiceRequests.get_one isObjectId).
Local Abbreviation owned ids userId :=
  (λ d : object, in_ (VStr <$> ids) (d !! "_id")
                 && eq_ (VStr userId) (d !! "usuario_id")).
Local Abbreviation draft oid userId body ids :=
  (ServiceRequestSchema.new castDate oid (Some userId)
     (ServiceRequests.body_nurse_id body) ids
     (ServiceRequests.body_detalles body)
     (ServiceRequests.body_fecha body)
     (ServiceRequests.body_tarifa body)).
Local Abbreviation failed e :=
  (Response 400 (Failure "Error al crear la solicitud de servicio" e)).

Lemma requests_post_cases db userId oid body :
  (∃ ids,
      ServiceRequests.body_patient_ids body = Some ids
      ∧ length (Collection.select (owned ids userId) (patients db))
        = length ids
      ∧ ServiceRequestSchema.validate isObjectId (draft oid userId body ids) =
          true
      ∧ (oid ∉ _id <$> requests db)
      ∧ post db userId oid body
        = (Database (patients db)
             (requests db ++ [draft oid userId body ids]),
           Response 201 (Request (draft oid userId body ids))))
  ∨ post db userId oid body = (db, ServiceRequests.denied)
  ∨ (∃ e, post db userId oid body = (db, failed e)).
Proof.
  rewrite requests_post_unfold. simpl.
  destruct (ServiceRequests.body_patient_ids body) as [ids|]; [|by eauto].
  destruct (length _ =? length ids) eqn:Hcount; simpl; [|by eauto].
  apply Nat.eqb_eq in Hcount.
  destruct (Collection.save _ _ _ _) as [coll|e] eqn:Hsave; [|by eauto].
  apply save_Ok in Hsave as (Hvalid & Hfresh & ->).
  left. exists ids. by split_and!.
Qed.

(** X11. Creating a service request is all or nothing: the answer is
    201, 403 or 400; on 403 and 400 the store is what it was; in no case
    are the patients touched or a stored request changed or removed. *)
Theorem requests_post_atomic db userId oid body :
  (status (post db userId oid body).2 = 201
   ∨ status (post db userId oid body).2 = 403
   ∨ status (post db userId oid body).2 = 400)
  ∧ (status (post db userId oid body).2 ≠ 201 →
     (post db userId oid body).1 = db)
  ∧ patients (post db userId oid body).1 = patients db
  ∧ requests db `prefix_of` requests (post db userId oid body).1
  ∧ length (requests (post db userId oid body).1) ≤ S (length (requests db)).
Proof.
  destruct (requests_post_cases db userId oid body)
    as [(ids & _ & _ & _ & _ & ->)|[->|[e ->]]]; simpl.
  - split_and!; [by left|done|done|by apply prefix_app_r|].
    rewrite length_app. simpl. lia.
  - split_and!; [by right; left|done|done|done|lia].
  - split_and!; [by right; right|done|done|done|lia].
Qed.

(** X12. With unique patient ids in the store, a create call succeeds
    exactly when the body has a list of distinct patient ids that each
    name a stored patient of the caller, the new document passes the
    schema's validators, and the generated id is not taken. *)
Theorem requests_post_succeeds_iff db userId oid body :
  NoDup (PatientSchema.key <$> patients db) →
  status (post db userId oid body).2 = 201 ↔
  ∃ ids,
    ServiceRequests.body_patient_ids body = Some ids
    ∧ NoDup ids
    ∧ (∀ id, id ∈ ids →
         ∃ d : object, d ∈ patients db ∧ d !! "_id" = Some (VStr id)
                       ∧ d !! "usuario_id" = Some (VStr userId))
    ∧ ServiceRequestSchema.validate isObjectId (draft oid userId body ids) =
        true
    ∧ (oid ∉ _id <$> requests db).
Proof.
  intros Huniq. split.
  - intros Hok.
    destruct (requests_post_cases db userId oid body)
      as [(ids & Hids & Hcount & Hvalid & Hfresh & _)|[Heq|[e Heq]]];
      [|by rewrite Heq in Hok..].
    apply owned_count_eq_iff in Hcount as [Hnd Hall]; [|done].
    exists ids. by split_and!.
  - intros (ids & Hids & Hnd & Hall & Hvalid & Hfresh).
    rewrite requests_post_unfold. simpl. rewrite Hids.
    rewrite (proj2 (Nat.eqb_eq _ _)) by (by apply owned_count_eq_iff).
    simpl.
    assert (Collection.save (ServiceRequestSchema.validate isObjectId) _id
              (draft oid userId body ids) (requests db)
            = Ok (requests db ++ [draft oid userId body ids])) as ->; [|done].
    by apply save_Ok.
Qed.

(** X13. An empty list of patient ids passes the ownership check: the
    answer is never 403, and the request is created, without patients,
    as soon as the document is valid and the generated id is free. *)
Theorem requests_post_empty_list db userId oid body :
  ServiceRequests.body_patient_ids body = Some [] →
  status (post db userId oid body).2 ≠ 403
  ∧ (ServiceRequestSchema.validate isObjectId (draft oid userId body []) =
      true →
     (oid ∉ _id <$> requests db) →
     post db userId oid body
     = (Database (patients db) (requests db ++ [draft oid userId body []]),
        Response 201 (Request (draft oid userId body [])))
     ∧ patient_ids (draft oid userId body []) = []).
Proof.
  intros Hids. rewrite requests_post_unfold. simpl. rewrite Hids.
  assert (Collection.select (owned [] userId) (patients db) = []) as ->.
  { apply select_none. intros d _. unfold in_.
    destruct (d !! "_id"); [|done].
    rewrite bool_decide_eq_false_2; [done|]. apply not_elem_of_nil. }
  simpl. split.
  - by destruct (Collection.save _ _ _ _).
  - intros Hvalid Hfresh. split; [|done].
    assert (Collection.save (ServiceRequestSchema.validate isObjectId) _id
              (draft oid userId body []) (requests db)
            = Ok (requests db ++ [draft oid userId body []])) as ->; [|done].
    by apply save_Ok.
Qed.

(** X14. A body without [patient_ids] is answered 400; so is a body
    whose patients pass the ownership check but that lacks a non-empty
    [nurse_id], a [fecha] that casts to a date, or a [tarifa]: the
    validators refuse the document, and the store is what it was. *)
Theorem requests_post_missing_fields db userId oid body :
  (ServiceRequests.body_patient_ids body = None →
     post db userId oid body = (db, failed TypeError))
  ∧ (∀ ids,
       ServiceRequests.body_patient_ids body = Some ids →
       length (Collection.select (owned ids userId) (patients db))
         = length ids →
       truthy (ServiceRequests.body_nurse_id body) = false
       ∨ ServiceRequests.body_fecha body ≫= castDate = None
       ∨ ServiceRequests.body_tarifa body = None →
       post db userId oid body = (db, failed ValidationError)).
Proof.
  split.
  - intros Hids. rewrite requests_post_unfold. simpl. by rewrite Hids.
  - intros ids Hids Hcount Hmissing.
    rewrite requests_post_unfold. simpl. rewrite Hids.
    rewrite (proj2 (Nat.eqb_eq _ _)) by done. simpl.
    assert (ServiceRequestSchema.validate isObjectId (draft oid userId body ids)
            = false) as Hinvalid.
    { unfold ServiceRequestSchema.validate. simpl.
      destruct Hmissing as [Hm | [Hm | Hm]]; rewrite Hm.
      - by rewrite andb_false_r.
      - rewrite (bool_decide_eq_false_2 (is_Some None))
          by apply is_Some_None.
        by rewrite andb_false_r.
      - rewrite (bool_decide_eq_false_2 (is_Some None))
          by apply is_Some_None.
        by rewrite andb_false_r. }
    unfold Collection.save. by rewrite Hinvalid.
Qed.

(** X15. A request just created can be read back: the detail call for
    the generated id returns the created document to the caller and to
    the nurse it names, and answers 404 to anyone else. *)
Theorem requests_post_then_get_one db userId oid body db' res :
  post db userId oid body = (db', res) →
  status res = 201 →
  ∃ newRequest,
    json res = Request newRequest
    ∧ get_one db' userId oid
      = Response 200
          (Detail (ServiceRequests.populate (patients db') newRequest))
    ∧ (∀ nurse, ServiceRequests.body_nurse_id body = Some nurse →
         get_one db' nurse oid
         = Response 200
             (Detail (ServiceRequests.populate (patients db') newRequest)))
    ∧ (∀ other, other ≠ userId →
         ServiceRequests.body_nurse_id body ≠ Some other →
         get_one db' other oid
         = Response 404 (Message "Solicitud no encontrada")).
Proof.
  intros Hpost Hok.
  destruct (requests_post_cases db userId oid body)
    as [(ids & Hids & _ & Hvalid & Hfresh & Heq)|[Heq|[e Heq]]];
    rewrite Heq in Hpost; injection Hpost as <- <-; [|done..].
  assert (isObjectId oid = true) as Hcast.
  { unfold ServiceRequestSchema.validate in Hvalid.
    by apply andb_true_iff in Hvalid as [_ Hvalid]. }
  exists (draft oid userId body ids). split; [done|].
  assert (∀ caller,
            Collection.select
              (λ r, bool_decide (_id r = oid)
                    && ServiceRequests.party caller r)
              (requests db ++ [draft oid userId body ids])
            = if ServiceRequests.party caller (draft oid userId body ids)
              then [draft oid userId body ids] else []) as Hsel.
  { intros caller. rewrite select_snoc, select_none.
    - simpl. by rewrite bool_decide_eq_true_2 by done.
    - intros d Hd. apply andb_false_iff. left.
      apply bool_decide_eq_false. intros Hid. apply Hfresh.
      rewrite <- Hid. by apply list_elem_of_fmap_2. }
  split_and!.
  - rewrite requests_get_one_unfold, Hsel by done.
    by rewrite (proj2 (party_true userId _)) by (by left).
  - intros nurse Hn. rewrite requests_get_one_unfold, Hsel by done.
    by rewrite (proj2 (party_true nurse _)) by (by right).
  - intros other Hu Hn. rewrite requests_get_one_unfold, Hsel by done.
    assert (ServiceRequests.party other (draft oid userId body ids) = false)
      as ->; [|done].
    apply not_true_is_false. intros [Hp|Hp]%party_true; simpl in Hp.
    + congruence.
    + by apply Hn.
Qed.

End RequestCreation.

(** ** Service requests: updating the status *)

Section StatusWrites.

Variable isObjectId : string → bool.

Local Abbreviation put := (ServiceRequests.put isObjectId).
Local Abbreviation get_one := (ServiceRequests.get_one isObjectId).
Local Abbreviation located id userId :=
  (λ r, bool_decide (_id r = id) && bool_decide (nurse_id r = Some userId)).
Local Abbreviation updated e r :=
  (Response 200 (Updated ("Solicitud " +:+ e +:+ " exitosamente") r)).

Lemma put_cases db userId id b_estado :
  (∃ e before old after,
      b_estado = Some e ∧ e ∈ ServiceRequests.statuses
      ∧ isObjectId id = true
      ∧ requests db = before ++ old :: after
      ∧ (∀ x, x ∈ before → located id userId x = false)
      ∧ _id old = id ∧ nurse_id old = Some userId
      ∧ put db userId id b_estado
        = (Database (patients db)
             (before ++ ServiceRequestSchema.set_estado e old :: after),
           updated e (ServiceRequestSchema.set_estado e old)))
  ∨ (∃ res, put db userId id b_estado = (db, res) ∧ status res ≠ 200).
Proof.
  assert (∀ res, status res ≠ 200 →
            put db userId id b_estado = (db, res) →
            ∃ res, put db userId id b_estado = (db, res) ∧ status res ≠ 200)
    as Hfails by eauto.
  destruct b_estado as [e|].
  2: { right. by apply (Hfails (Response 400 (Message "Estado inválido"))). }
  destruct (decide (e ∈ ServiceRequests.statuses)) as [He|He].
  2: { right. apply (Hfails (Response 400 (Message "Estado inválido")));
         [done|].
       apply put_invalid. by intros ? [= <-]. }
  destruct (isObjectId id) eqn:Hcast.
  2: { right. eapply Hfails; [|by apply put_uncastable]. done. }
  destruct (Collection.update_first (located id userId)
              (ServiceRequestSchema.set_estado e) (requests db))
    as [[coll r]|] eqn:Hf.
  2: { right.
       apply (Hfails (Response 404
                        (Message "Solicitud de servicio no encontrada")));
         [done|].
       by rewrite put_valid, Hf by done. }
  apply update_first_Some in Hf
    as (before & old & after & Hdb & Hbefore & [Hid Hn]%located_true
        & -> & ->).
  left. exists e, before, old, after. split_and!; try done.
  rewrite put_valid by done.
  assert (Collection.update_first (located id userId)
            (ServiceRequestSchema.set_estado e) (requests db)
          = Some (before ++ ServiceRequestSchema.set_estado e old :: after,
                  ServiceRequestSchema.set_estado e old)) as ->; [|done].
  apply update_first_Some. exists before, old, after.
  split_and!; try done. by apply located_true.
Qed.


(** X17. The last status written wins: after an update that succeeded, a
    further update of the same request by the same nurse to any of the
    four values gives the store and the response it would have given
    without the first update; repeating the same update changes
    nothing. *)
Theorem put_last_write_wins db userId id e1 e2 db1 res1 :
  put db userId id (Some e1) = (db1, res1) →
  status res1 = 200 →
  e2 ∈ ServiceRequests.statuses →
  put db1 userId id (Some e2) = put db userId id (Some e2)
  ∧ put db1 userId id (Some e1) = (db1, res1).
Proof.
  intros Hput Hok He2.
  destruct (put_cases db userId id (Some e1))
    as [(e & before & old & after & [= <-] & He1 & Hcast & Hdb & Hbefore
         & Hid & Hn & Heq)|[res [Heq Hres]]];
    rewrite Heq in Hput; injection Hput as <- <-; [|done].
  assert (∀ e' coll, e' ∈ ServiceRequests.statuses →
            ∀ cur, _id cur = id → nurse_id cur = Some userId →
            coll = before ++ cur :: after →
            put (Database (patients db) coll) userId id (Some e')
            = (Database (patients db)
                 (before ++ ServiceRequestSchema.set_estado e' cur :: after),
               updated e' (ServiceRequestSchema.set_estado e' cur)))
    as Hstep.
  { intros e' coll He' cur Hcid Hcn ->. rewrite put_valid by done. simpl.
    assert (Collection.update_first (located id userId)
              (ServiceRequestSchema.set_estado e') (before ++ cur :: after)
            = Some (before ++ ServiceRequestSchema.set_estado e' cur :: after,
                    ServiceRequestSchema.set_estado e' cur)) as ->; [|done].
    apply update_first_Some. exists before, cur, after.
    split_and!; try done. by apply located_true. }
  split.
  - rewrite (Hstep e2 _ He2 (ServiceRequestSchema.set_estado e1 old))
      by done.
    destruct db as [pats reqs]. simpl in *.
    by rewrite (Hstep e2 reqs He2 old) by done.
  - by rewrite (Hstep e1 _ He1 (ServiceRequestSchema.set_estado e1 old))
      by done.
Qed.

(** X18. With unique request ids, the status a nurse has just set is the
    status the detail call shows, to the nurse and to the user who
    requested the service alike. *)
Theorem put_then_get_one db userId id b_estado db' res :
  NoDup (_id <$> requests db) →
  put db userId id b_estado = (db', res) →
  status res = 200 →
  ∃ e serviceRequest,
    b_estado = Some e
    ∧ res = updated e serviceRequest
    ∧ estado serviceRequest = e
    ∧ get_one db' userId id
      = Response 200
          (Detail (ServiceRequests.populate (patients db') serviceRequest))
    ∧ (∀ requester, user_id serviceRequest = Some requester →
         get_one db' requester id
         = Response 200
             (Detail (ServiceRequests.populate (patients db')
                        serviceRequest))).
Proof.
  intros Huniq Hput Hok.
  destruct (put_cases db userId id b_estado)
    as [(e & before & old & after & -> & He & Hcast & Hdb & _ & Hid & Hn
         & Heq)|[res' [Heq Hres]]];
    rewrite Heq in Hput; injection Hput as <- <-; [|done].
  exists e, (ServiceRequestSchema.set_estado e old).
  assert (∀ caller,
            ServiceRequests.party caller
              (ServiceRequestSchema.set_estado e old) = true →
            get_one
              (Database (patients db)
                 (before ++ ServiceRequestSchema.set_estado e old :: after))
              caller id
            = Response 200
                (Detail (ServiceRequests.populate (patients db)
                           (ServiceRequestSchema.set_estado e old))))
    as Hread.
  { intros caller Hparty. rewrite requests_get_one_unfold by done. simpl.
    rewrite (head_select_unique _ _ (ServiceRequestSchema.set_estado e old));
      try done.
    - rewrite fmap_app, fmap_cons. simpl.
      by rewrite Hdb, fmap_app, fmap_cons in Huniq.
    - apply elem_of_app. right. left.
    - by apply visible_true, conj, party_true.
    - intros x [Hx _]%visible_true. simpl. congruence. }
  split_and!; [done..| |].
  - apply Hread, party_true. by right.
  - intros requester Hu. apply Hread, party_true. by left.
Qed.

End StatusWrites.

(** ** What holds in every reachable store *)

Lemma NoDup_fmap_eq {A B : Type} (f : A → B) (l : list A) (x y : A) :
  NoDup (f <$> l) → x ∈ l → y ∈ l → f x = f y → x = y.
Proof.
  induction l as [|z l IH]; [by intros _ ?%elem_of_nil|].
  rewrite fmap_cons. intros [Hz Hl]%NoDup_cons Hx Hy Hf.
  apply elem_of_cons in Hx as [->|Hx]; apply elem_of_cons in Hy as [->|Hy].
  - done.
  - destruct Hz. rewrite Hf. by apply list_elem_of_fmap_2.
  - destruct Hz. rewrite <- Hf. by apply list_elem_of_fmap_2.
  - by apply IH.
Qed.

(** A property of single requests that creation establishes and a status
    update keeps holds of every request of every reachable store. *)
Lemma reachable_requests_Forall (P : ServiceRequest → Prop) :
  (∀ castDate isObjectId oid userId nurse ids detalles fecha tarifa,
     ServiceRequestSchema.validate isObjectId
       (ServiceRequestSchema.new castDate oid (Some userId) nurse ids
          detalles fecha tarifa) = true →
     P (ServiceRequestSchema.new castDate oid (Some userId) nurse ids
          detalles fecha tarifa)) →
  (∀ e r, e ∈ ServiceRequests.statuses → P r →
          P (ServiceRequestSchema.set_estado e r)) →
  ∀ db, reachable db → Forall P (requests db).
Proof.
  intros Hnew Hset db.
  induction 1 as [|validate db userId oid body _ IH
                  |castDate isObjectId db userId oid body _ IH
                  |isObjectId db userId id b_estado _ IH].
  - constructor.
  - by destruct (patients_post_cases validate db userId oid body)
      as [[-> _]|[e ->]].
  - destruct (requests_post_cases castDate isObjectId db userId oid body)
      as [(ids & _ & _ & Hvalid & _ & ->)|[->|[e ->]]]; simpl; [|done..].
    apply Forall_app. split; [done|]. constructor; [|done]. by eapply Hnew.
  - destruct (put_cases isObjectId db userId id b_estado)
      as [(e & before & old & after & _ & He & _ & Hdb & _ & _ & _ & ->)
         |[res [-> _]]]; simpl; [|done].
    rewrite Hdb in IH. apply Forall_app in IH as [Hb [Ho Ha]%Forall_cons].
    apply Forall_app. split; [done|]. constructor; [|done]. by apply Hset.
Qed.

(** X19. In every store the handlers can reach from the empty one, ids
    identify: two stored requests with the same [_id] are the same
    request, and two stored patients with the same [_id] are the same
    patient. *)
Theorem reachable_ids_identify db :
  reachable db →
  (∀ r1 r2, r1 ∈ requests db → r2 ∈ requests db → _id r1 = _id r2 → r1 = r2)
  ∧ (∀ p1 p2 : object, p1 ∈ patients db → p2 ∈ patients db →
       p1 !! "_id" = p2 !! "_id" → p1 = p2).
Proof.
  intros [Hp Hr]%reachable_unique_ids. split.
  - intros r1 r2. by apply NoDup_fmap_eq.
  - intros p1 p2. by apply (NoDup_fmap_eq PatientSchema.key).
Qed.

(** X20. In every reachable store each request has one of the four
    statuses and the fields the schema requires: a non-empty requester
    and nurse, non-empty patient ids, a date and a fee. *)
Theorem reachable_requests_valid db :
  reachable db →
  ∀ r, r ∈ requests db →
    estado r ∈ ServiceRequests.statuses
    ∧ (∃ u, user_id r = Some u ∧ u ≠ "")
    ∧ (∃ n, nurse_id r = Some n ∧ n ≠ "")
    ∧ (∀ id, id ∈ patient_ids r → id ≠ "")
    ∧ is_Some (fecha r) ∧ is_Some (tarifa r).
Proof.
  intros Hreach.
  assert (Forall (λ r, estado r ∈ ServiceRequests.statuses
                       ∧ ∃ isObjectId,
                           ServiceRequestSchema.validate isObjectId r = true)
            (requests db)) as Hall.
  { apply reachable_requests_Forall; [| |done].
    - intros. split; [|by eauto]. simpl. unfold ServiceRequests.statuses.
      set_solver.
    - intros e r He [_ Hv]. by split. }
  intros r Hr. rewrite Forall_forall in Hall.
  destruct (Hall r Hr) as [He [isObjectId Hv]]. split; [done|].
  unfold ServiceRequestSchema.validate in Hv.
  apply andb_true_iff in Hv as [Hv _].
  repeat (apply andb_true_iff in Hv as [Hv ?]).
  assert (∀ o, truthy o = true → ∃ s, o = Some s ∧ s ≠ "") as Htruthy.
  { intros [s|] Ht; [|done]. exists s. split; [done|].
    simpl in Ht. apply negb_true_iff in Ht.
    by apply bool_decide_eq_false in Ht. }
  split_and!.
  - by apply Htruthy.
  - by apply Htruthy.
  - intros id Hid.
    match goal with
    | H : forallb _ _ = true |- _ =>
        rewrite forallb_forall in H;
        specialize (H id (proj1 (list_elem_of_In _ _) Hid))
    end.
    by destruct (Htruthy (Some id)) as (? & [= <-] & ?).
  - by eapply bool_decide_unpack, Is_true_true.
  - by eapply bool_decide_unpack, Is_true_true.
Qed.

(** X21. No handler sets the payment flags or the documentation fields:
    in every reachable store both flags of every request are false and
    its documentation, observations and recommendations are undefined. *)
Theorem reachable_requests_never_paid db :
  reachable db →
  ∀ r, r ∈ requests db →
    pago_realizado r = false ∧ pago_liberado r = false
    ∧ documentacion_servicio r = None ∧ observaciones r = None
    ∧ recomendaciones r = None.
Proof.
  intros Hreach.
  assert (Forall (λ r, pago_realizado r = false ∧ pago_liberado r = false
                       ∧ documentacion_servicio r = None
                       ∧ observaciones r = None ∧ recomendaciones r = None)
            (requests db)) as Hall.
  { apply reachable_requests_Forall; [done| |done]. by intros e r _ ?. }
  intros r Hr. rewrite Forall_forall in Hall. by apply Hall.
Qed.

(** X22. In every reachable store each request refers to patients that
    are there and are its requester's: its patient ids are distinct, and
    each names a stored patient owned by the request's [user_id]. *)
Theorem reachable_requests_refer_to_own_patients db :
  reachable db →
  ∀ r, r ∈ requests db →
    NoDup (patient_ids r)
    ∧ ∃ u, user_id r = Some u
           ∧ ∀ id, id ∈ patient_ids r →
               ∃ d : object, d ∈ patients db
                             ∧ d !! "_id" = Some (VStr id)
                             ∧ d !! "usuario_id" = Some (VStr u).
Proof.
  induction 1 as [|validate db userId oid body Hreach IH
                  |castDate isObjectId db userId oid body Hreach IH
                  |isObjectId db userId id b_estado Hreach IH].
  - by intros r ?%elem_of_nil.
  - destruct (patients_post_cases validate db userId oid body)
      as [[-> _]|[e ->]]; simpl; [|done].
    intros r Hr. destruct (IH r Hr) as (Hnd & u & Hu & Hall).
    split; [done|]. exists u. split; [done|].
    intros i Hi. destruct (Hall i Hi) as (d & Hd & ?).
    exists d. split; [|done]. apply elem_of_app. by left.
  - destruct (requests_post_cases castDate isObjectId db userId oid body)
      as [(ids & _ & Hcount & _ & _ & ->)|[->|[e ->]]]; simpl; [|done..].
    intros r [Hr|Hr%list_elem_of_singleton]%elem_of_app; [by apply IH|].
    subst r. simpl.
    apply owned_count_eq_iff in Hcount as [Hnd Hall].
    + split; [done|]. by exists userId.
    + by apply reachable_unique_ids in Hreach as [? _].
  - destruct (put_cases isObjectId db userId id b_estado)
      as [(e & before & old & after & _ & _ & _ & Hdb & _ & _ & _ & ->)
         |[res [-> _]]]; simpl; [|done].
    intros r Hr. rewrite Hdb in IH.
    apply elem_of_app in Hr as [Hr|[->|Hr]%elem_of_cons].
    + apply IH, elem_of_app. by left.
    + apply (IH old), elem_of_app. right. left.
    + apply IH, elem_of_app. right. by right.
Qed.

(** X23. In every reachable store each patient has an [_id] and a
    string [usuario_id]: the owner stamped at creation. *)
Theorem reachable_patients_owned db :
  reachable db →
  ∀ d : object, d ∈ patients db →
    is_Some (d !! "_id") ∧ ∃ u, d !! "usuario_id" = Some (VStr u).
Proof.
  induction 1 as [|validate db userId oid body _ IH
                  |castDate isObjectId db userId oid body _ IH
                  |isObjectId db userId id b_estado _ IH].
  - by intros d ?%elem_of_nil.
  - destruct (patients_post_cases validate db userId oid body)
      as [[-> Hown]|[e ->]]; simpl; [|done].
    intros d [Hd|Hd%list_elem_of_singleton]%elem_of_app; [by apply IH|].
    subst d. split; [apply new_patient_has_id|by eauto].
  - by destruct (requests_post_cases castDate isObjectId db userId oid body)
      as [(ids & _ & _ & _ & _ & ->)|[->|[e ->]]].
  - by destruct (put_cases isObjectId db userId id b_estado)
      as [(e & before & old & after & _ & _ & _ & _ & _ & _ & _ & ->)
         |[res [-> _]]].
Qed.

(** ** The further properties on the sample stores *)

Lemma sample_accepted_reachable : reachable Sample.accepted.
Proof. repeat constructor. Defined.

Lemma gate_ignores_scheme_witness :
  Auth.headers Sample.basic_request !! "authorization"
    = Some "Basic signed-by-us"
  ∧ Auth.authenticateToken Sample.jwt_verify Sample.basic_request
    = Auth.next
        (Auth.Request (Auth.headers Sample.basic_request) (Some (VStr "A"))).
Proof.
  split; [vm_compute; reflexivity|].
  destruct (gate_ignores_scheme Sample.jwt_verify Sample.basic_request
              "Basic" "signed-by-us" eq_refl eq_refl) as [Hgate _];
    [discriminate|].
  rewrite Hgate by (vm_compute; reflexivity). vm_compute; reflexivity.
Defined.

Lemma gate_needs_second_word_witness :
  Sample.jwt_verify "signed-by-us" Auth.secret
    = Auth.decoded {[ "userId" := VStr "A" ]}
  ∧ Auth.authenticateToken Sample.jwt_verify Sample.bare_request
    = Auth.sendStatus 401.
Proof.
  split; [vm_compute; reflexivity|].
  destruct (gate_needs_second_word Sample.jwt_verify Sample.bare_request
              "signed-by-us") as [Hbare _]; [vm_compute; reflexivity|].
  by apply Hbare.
Defined.

Lemma issued_token_passes_witness :
  Auth.generateToken Sample.jwt_sign (VStr "A") = "signed-by-us"
  ∧ Auth.authenticateToken Sample.jwt_verify
      (Auth.Request {[ "authorization" := "Bearer signed-by-us" ]} None)
    = Auth.next
        (Auth.Request {[ "authorization" := "Bearer signed-by-us" ]}
           (Some (VStr "A"))).
Proof.
  split; [vm_compute; reflexivity|].
  refine (issued_token_passes Sample.jwt_sign Sample.jwt_verify
            (Auth.Request {[ "authorization" := "Bearer signed-by-us" ]} None)
            (VStr "A") {[ "userId" := VStr "A" ]} _ _ _ _ _);
    vm_compute; (reflexivity || discriminate).
Defined.

Lemma patients_get_only_own_witness :
  json (Patients.get Sample.db "A" None None)
    = PatientPage 2 1 10 [delete "_id" Sample.ana; delete "_id" Sample.luis]
  ∧ Forall (λ patientData : object,
              patientData !! "usuario_id" = Some (VStr "A"))
      [delete "_id" Sample.ana; delete "_id" Sample.luis].
Proof.
  assert (json (Patients.get Sample.db "A" None None)
          = PatientPage 2 1 10
              [delete "_id" Sample.ana; delete "_id" Sample.luis]) as Hget
    by (vm_compute; reflexivity).
  split; [exact Hget|]. apply Forall_forall. intros patientData Hin.
  apply (patients_get_only_own Sample.db "A" None None 2 1%Z 10%Z _ Hget
           patientData Hin).
Defined.

Lemma patients_get_pages_witness :
  ∃ page : nat → list object,
    Patients.get Sample.db "A" (Some (Z.of_nat 1 + 1)%Z) (Some 1%Z)
      = Response 200 (PatientPage 2 (Z.of_nat 1 + 1) 1 (page 1))
    ∧ concat (page <$> seq 0 2)
      = Patients.withoutID <$> [Sample.ana; Sample.luis]
    ∧ page 2 = [].
Proof.
  destruct (patients_get_pages Sample.db "A" 1%Z) as (page & Hget & _ & Hall);
    [lia|].
  assert (length (Collection.select
                    (λ d : object, eq_ (VStr "A") (d !! "usuario_id"))
                    (patients Sample.db)) ≤ 2 * Z.to_nat 1) as Hlen
    by (vm_compute; lia).
  destruct (Hall 2 Hlen) as [Hconcat Hempty].
  exists page. split_and!.
  - exact (Hget 1).
  - exact Hconcat.
  - exact Hempty.
Defined.

Lemma patients_post_atomic_witness :
  status (Patients.post Sample.validate Sample.db "A" "p1" Sample.carla).2
    = 400
  ∧ (Patients.post Sample.validate Sample.db "A" "p1" Sample.carla).1
    = Sample.db.
Proof.
  destruct (patients_post_atomic Sample.validate Sample.db "A" "p1"
              Sample.carla) as (_ & Hsame & _).
  split; [vm_compute; reflexivity|]. apply Hsame. vm_compute. discriminate.
Defined.

Lemma patients_post_then_get_witness :
  ∃ patientData,
    json (Patients.post Sample.validate Sample.db "A" "p4" Sample.carla).2
      = PatientData patientData
    ∧ (∃ page total listed,
         Patients.get
           (Patients.post Sample.validate Sample.db "A" "p4" Sample.carla).1
           "A" (Some page) (Some 2%Z)
         = Response 200 (PatientPage total page 2 listed)
         ∧ patientData ∈ listed)
    ∧ (∃ total listed,
         Patients.get
           (Patients.post Sample.validate Sample.db "A" "p4" Sample.carla).1
           "A" (Some 1%Z) (Some 3%Z)
         = Response 200 (PatientPage total 1 3 listed)
         ∧ patientData ∈ listed)
    ∧ Patients.get
        (Patients.post Sample.validate Sample.db "A" "p4" Sample.carla).1
        "B" None None
      = Patients.get Sample.db "B" None None.
Proof.
  destruct (patients_post_then_get Sample.validate Sample.db "A" "p4"
              Sample.carla
              (Patients.post Sample.validate Sample.db "A" "p4"
                 Sample.carla).1
              (Patients.post Sample.validate Sample.db "A" "p4"
                 Sample.carla).2)
    as (patientData & Hres & _ & Hsome & Hfirst & Hother);
    [apply surjective_pairing|vm_compute; reflexivity|].
  exists patientData. split_and!.
  - exact Hres.
  - destruct (Hsome 2%Z) as (page & total & listed & _ & Hget & Hin); [lia|].
    exists page, total, listed. split; [exact Hget|exact Hin].
  - apply (Hfirst 3%Z). vm_compute. discriminate.
  - apply Hother. discriminate.
Defined.

Lemma requests_get_list_only_party_witness :
  json (ServiceRequests.get_list Sample.db "N" (Some "aceptada") None None)
    = RequestPage 1 1 10
        [ServiceRequests.populate (patients Sample.db) Sample.visit]
  ∧ Forall (λ item, nurse_id (request_of item) = Some "N"
                    ∧ estado (request_of item) = "aceptada")
      [ServiceRequests.populate (patients Sample.db) Sample.visit].
Proof.
  split; [reflexivity|]. apply Forall_forall. intros item Hin.
  destruct (requests_get_list_only_party Sample.db "N" (Some "aceptada")
              None None 1 1%Z 10%Z
              [ServiceRequests.populate (patients Sample.db) Sample.visit]
              eq_refl item Hin) as (_ & Hparty & Hestado).
  split.
  - destruct Hparty as [Hu|Hn]; [|exact Hn].
    apply list_elem_of_singleton in Hin as ->. discriminate Hu.
  - apply (Hestado "aceptada"); [reflexivity|discriminate].
Defined.


Lemma requests_get_list_pages_witness :
  ∃ page : nat → list populated,
    ServiceRequests.get_list Sample.db "A" None
      (Some (Z.of_nat 0 + 1)%Z) (Some 5%Z)
      = Response 200 (RequestPage 1 (Z.of_nat 0 + 1) 5 (page 0))
    ∧ concat (page <$> seq 0 1)
      = ServiceRequests.populate (patients Sample.db) <$> [Sample.visit]
    ∧ page 1 = [].
Proof.
  destruct (requests_get_list_pages Sample.db "A" None 5%Z)
    as (page & Hget & _ & Hall); [lia|].
  assert (length (Collection.select (ServiceRequests.list_filter "A" None)
                    (requests Sample.db)) ≤ 1 * Z.to_nat 5) as Hlen
    by (vm_compute; lia).
  destruct (Hall 1 Hlen) as [Hconcat Hempty].
  exists page. split_and!.
  - exact (Hget 0).
  - exact Hconcat.
  - exact Hempty.
Defined.

Lemma requests_post_atomic_witness :
  status (ServiceRequests.post Sample.castDate Sample.isObjectId Sample.db "A"
      Sample.r2
            Sample.body_bad_date).2 = 400
  ∧ (ServiceRequests.post Sample.castDate Sample.isObjectId Sample.db "A"
      Sample.r2
       Sample.body_bad_date).1 = Sample.db.
Proof.
  destruct (requests_post_atomic Sample.castDate Sample.isObjectId Sample.db
      "A" Sample.r2
              Sample.body_bad_date) as (_ & Hsame & _).
  split; [vm_compute; reflexivity|]. apply Hsame. vm_compute. discriminate.
Defined.

Lemma requests_post_succeeds_iff_witness :
  status (ServiceRequests.post Sample.castDate Sample.isObjectId Sample.db "A"
      Sample.r2
            (Sample.body ["p1"; "p2"])).2 = 201
  ∧ status (ServiceRequests.post Sample.castDate Sample.isObjectId Sample.db
      "A" Sample.r2
              (Sample.body ["p1"; "p3"])).2 ≠ 201.
Proof.
  split.
  - apply (requests_post_succeeds_iff Sample.castDate Sample.isObjectId
      Sample.db "A" Sample.r2
             (Sample.body ["p1"; "p2"]) sample_patients_unique).
    exists ["p1"; "p2"]. split_and!.
    + reflexivity.
    + compute_done.
    + intros id [->|[->|[]%elem_of_nil]%elem_of_cons]%elem_of_cons.
      * exists Sample.ana. split_and!; [left|vm_compute; reflexivity..].
      * exists Sample.luis.
        split_and!; [right; left|vm_compute; reflexivity..].
    + vm_compute. reflexivity.
    + compute_done.
  - intros Hok.
    apply (requests_post_succeeds_iff Sample.castDate Sample.isObjectId
        Sample.db "A" Sample.r2
             (Sample.body ["p1"; "p3"]) sample_patients_unique) in Hok
      as (ids & [= <-] & _ & Hall & _).
    destruct (Hall "p3") as (d & Hd & Hid & Hown); [compute_done|].
    apply elem_of_cons in Hd as [->|Hd]; [by vm_compute in Hid|].
    apply elem_of_cons in Hd as [->|Hd]; [by vm_compute in Hid|].
    apply list_elem_of_singleton in Hd as ->. by vm_compute in Hown.
Defined.

Lemma requests_post_empty_list_witness :
  status (ServiceRequests.post Sample.castDate Sample.isObjectId Sample.db "A"
      Sample.r2
            Sample.body_without_patients).2 = 201
  ∧ ∃ newRequest,
      json (ServiceRequests.post Sample.castDate Sample.isObjectId Sample.db
          "A" Sample.r2
              Sample.body_without_patients).2 = Request newRequest
      ∧ patient_ids newRequest = [].
Proof.
  destruct (requests_post_empty_list Sample.castDate Sample.isObjectId
      Sample.db "A" Sample.r2
              Sample.body_without_patients eq_refl) as [_ Hcreated].
  destruct Hcreated as [Heq Hnone]; [vm_compute; reflexivity|compute_done|].
  rewrite Heq. split; [reflexivity|]. eexists. split; [reflexivity|].
  exact Hnone.
Defined.

Lemma requests_post_missing_fields_witness :
  Sample.castDate "mañana" = None
  ∧ ServiceRequests.post Sample.castDate Sample.isObjectId Sample.db "A"
      Sample.r2
      Sample.body_bad_date
    = (Sample.db,
       Response 400
         (Failure "Error al crear la solicitud de servicio" ValidationError)).
Proof.
  split; [vm_compute; reflexivity|].
  destruct (requests_post_missing_fields Sample.castDate Sample.isObjectId
      Sample.db "A" Sample.r2
              Sample.body_bad_date) as [_ Hinvalid].
  apply (Hinvalid ["p1"]).
  - reflexivity.
  - vm_compute. reflexivity.
  - right. left. vm_compute. reflexivity.
Defined.

Lemma requests_post_then_get_one_witness :
  ∃ newRequest,
    json (ServiceRequests.post Sample.castDate Sample.isObjectId Sample.db "A"
        Sample.r2
            (Sample.body ["p1"])).2 = Request newRequest
    ∧ status (ServiceRequests.get_one Sample.isObjectId
                (ServiceRequests.post Sample.castDate Sample.isObjectId
                    Sample.db "A" Sample.r2
                   (Sample.body ["p1"])).1 "N" Sample.r2) = 200
    ∧ status (ServiceRequests.get_one Sample.isObjectId
                (ServiceRequests.post Sample.castDate Sample.isObjectId
                    Sample.db "A" Sample.r2
                   (Sample.body ["p1"])).1 "B" Sample.r2) = 404.
Proof.
  destruct (requests_post_then_get_one Sample.castDate Sample.isObjectId
      Sample.db "A" Sample.r2
              (Sample.body ["p1"])
              (ServiceRequests.post Sample.castDate Sample.isObjectId
                  Sample.db "A" Sample.r2
                 (Sample.body ["p1"])).1
              (ServiceRequests.post Sample.castDate Sample.isObjectId
                  Sample.db "A" Sample.r2
                 (Sample.body ["p1"])).2)
    as (newRequest & Hres & _ & Hnurse & Hother);
    [apply surjective_pairing|vm_compute; reflexivity|].
  exists newRequest. split_and!.
  - exact Hres.
  - rewrite (Hnurse "N") by reflexivity. reflexivity.
  - rewrite (Hother "B") by discriminate. reflexivity.
Defined.

Lemma put_last_write_wins_witness :
  ServiceRequests.put Sample.isObjectId
    (ServiceRequests.put Sample.isObjectId Sample.db "N" Sample.r1 (Some
        "completada")).1
    "N" Sample.r1 (Some "pendiente")
  = ServiceRequests.put Sample.isObjectId Sample.db "N" Sample.r1 (Some
      "pendiente").
Proof.
  apply (put_last_write_wins Sample.isObjectId Sample.db "N" Sample.r1
      "completada" "pendiente"
           (ServiceRequests.put Sample.isObjectId Sample.db "N" Sample.r1
               (Some "completada")).1
           (ServiceRequests.put Sample.isObjectId Sample.db "N" Sample.r1
               (Some "completada")).2).
  - apply surjective_pairing.
  - vm_compute. reflexivity.
  - compute_done.
Defined.

Lemma put_then_get_one_witness :
  ∃ serviceRequest,
    estado serviceRequest = "completada"
    ∧ ServiceRequests.get_one Sample.isObjectId
        (ServiceRequests.put Sample.isObjectId Sample.db "N" Sample.r1 (Some
            "completada")).1
        "A" Sample.r1
      = Response 200
          (Detail
             (ServiceRequests.populate
                (patients
                   (ServiceRequests.put Sample.isObjectId Sample.db "N"
                       Sample.r1
                      (Some "completada")).1)
                serviceRequest)).
Proof.
  destruct (put_then_get_one Sample.isObjectId Sample.db "N" Sample.r1 (Some
      "completada")
              (ServiceRequests.put Sample.isObjectId Sample.db "N" Sample.r1
                  (Some "completada")).1
              (ServiceRequests.put Sample.isObjectId Sample.db "N" Sample.r1
                  (Some "completada")).2)
    as (e & serviceRequest & [= <-] & Hres & Hestado & _ & Hrequester).
  - vm_compute. apply NoDup_singleton.
  - apply surjective_pairing.
  - vm_compute. reflexivity.
  - exists serviceRequest. split; [exact Hestado|].
    apply Hrequester. injection Hres as Hres. by rewrite <- Hres.
Defined.

Lemma reachable_ids_identify_witness :
  reachable Sample.accepted
  ∧ Forall (λ r1, Forall (λ r2, _id r1 = _id r2 → r1 = r2)
                    (requests Sample.accepted))
      (requests Sample.accepted).
Proof.
  split; [exact sample_accepted_reachable|].
  apply Forall_forall. intros r1 H1. apply Forall_forall. intros r2 H2.
  by apply (reachable_ids_identify _ sample_accepted_reachable).
Defined.

Lemma reachable_requests_valid_witness :
  reachable Sample.accepted
  ∧ Forall (λ r, estado r ∈ ServiceRequests.statuses ∧ is_Some (tarifa r))
      (requests Sample.accepted).
Proof.
  split; [exact sample_accepted_reachable|].
  apply Forall_forall. intros r Hr.
  destruct (reachable_requests_valid _ sample_accepted_reachable r Hr)
    as (He & _ & _ & _ & _ & Ht).
  by split.
Defined.

Lemma reachable_requests_never_paid_witness :
  reachable Sample.accepted
  ∧ Forall (λ r, pago_realizado r = false ∧ pago_liberado r = false)
      (requests Sample.accepted).
Proof.
  split; [exact sample_accepted_reachable|].
  apply Forall_forall. intros r Hr.
  destruct (reachable_requests_never_paid _ sample_accepted_reachable r Hr)
    as (Hp & Hl & _).
  by split.
Defined.

Lemma reachable_requests_refer_to_own_patients_witness :
  reachable Sample.accepted
  ∧ Forall (λ r, NoDup (patient_ids r)) (requests Sample.accepted).
Proof.
  split; [exact sample_accepted_reachable|].
  apply Forall_forall. intros r Hr.
  by destruct (reachable_requests_refer_to_own_patients _
                 sample_accepted_reachable r Hr) as [Hnd _].
Defined.

Lemma reachable_patients_owned_witness :
  reachable Sample.accepted
  ∧ Forall (λ d : object, ∃ u, d !! "usuario_id" = Some (VStr u))
      (patients Sample.accepted).
Proof.
  split; [exact sample_accepted_reachable|].
  apply Forall_forall. intros d Hd.
  by destruct (reachable_patients_owned _ sample_accepted_reachable d Hd)
    as [_ Hu].
Defined.
